(** * IoT Career Roadmap: the [App] component of [frontend/src/App.js]

    A shallow embedding of the single React component of the front end:
    its six state cells, the two asynchronous fetchers [fetchData] and
    [fetchLevelDetails], the two lookup tables [getLevelColor] and
    [getDifficultyIcon], and the render function with its three
    sub-components.  The view types keep what is computed from the state
    and every [onClick]; static headings, class names without a
    conditional, the footer and the specialization chips of a level card
    (which go through [toUpperCase]) are left out. *)

From Stdlib Require Import Ascii String ZArith List Bool Lia PeanoNat DecimalString.
Import ListNotations.
Local Open Scope string_scope.

(* ================================================================== *)
(** ** JavaScript primitive values *)
(* ================================================================== *)

(** The values that flow through identifiers and enum fields of the JSON
    documents: the component compares them with [===], tests them with
    [&&], interpolates them in template literals and renders them as
    React children.  [Num] carries an integral JSON number in the safe
    range, below 2^53 in absolute value, where ToString prints the
    decimal digits. *)
Module Js.

Inductive value : Type :=
| Undefined
| Null
| Bool (b : bool)
| Num (n : Z)
| Str (s : string).

Definition value_eq_dec (a b : value) : {a = b} + {a <> b}.
Proof.
  decide equality.
  - apply Bool.bool_dec.
  - apply Z.eq_dec.
  - apply string_dec.
Defined.

(** [a === b] on primitives. *)
Definition strict_eq (a b : value) : bool :=
  if value_eq_dec a b then true else false.

(** ToBoolean, as applied by [&&] and [!]. *)
Definition truthy (v : value) : bool :=
  match v with
  | Undefined | Null => false
  | Bool b => b
  | Num n => negb (n =? 0)%Z
  | Str s => negb (s =? "")
  end.

(** ToString, as applied by a template literal [`${v}`]. *)
Definition to_string (v : value) : string :=
  match v with
  | Undefined => "undefined"
  | Null => "null"
  | Bool true => "true"
  | Bool false => "false"
  | Num n => NilZero.string_of_int (Z.to_int n)
  | Str s => s
  end.

(** What React puts in the DOM for a primitive child [{v}]: numbers
    and strings are printed, [null], [undefined] and booleans are
    skipped. *)
Definition child_text (v : value) : string :=
  match v with
  | Num _ | Str _ => to_string v
  | Undefined | Null | Bool _ => ""
  end.

(** [s.replace('_', ' ')]: a string pattern replaces its first
    occurrence only. *)
Fixpoint replace_underscore (s : string) : string :=
  match s with
  | EmptyString => EmptyString
  | String c rest =>
      if Ascii.eqb c "_"%char then String " "%char rest
      else String c (replace_underscore rest)
  end.

End Js.

(* ================================================================== *)
(** ** Documents delivered by the backend *)
(* ================================================================== *)

Module RoadmapLevel.
Record t : Type := {
  id : Js.value;
  level_number : Js.value;
  title : string;
  description : string;
  difficulty_level : Js.value;
  estimated_duration_months : Js.value;
  skills_to_develop : list string;
  projects_to_complete : list string;
  specialization_paths : list string;
  milestone_achievements : list string
}.
End RoadmapLevel.

Module Skill.
Record t : Type := {
  id : Js.value;
  name : string;
  description : string;
  category : string;
  estimated_time_hours : Js.value
}.
End Skill.

Module Course.
Record t : Type := {
  id : Js.value;
  title : string;
  description : string;
  provider : string;
  duration_weeks : Js.value;
  cost : string
}.
End Course.

Module Project.
Record t : Type := {
  id : Js.value;
  title : string;
  description : string;
  estimated_time_weeks : Js.value;
  technologies_used : list string
}.
End Project.

Module Role.
Record t : Type := {
  id : Js.value;
  title : string;
  description : string;
  salary_range : string;
  industry_demand : string
}.
End Role.

(** The detail bundle of one level, as read by [LevelDetails]. *)
Module Bundle.
Record t : Type := {
  level : RoadmapLevel.t;
  skills : list Skill.t;
  courses : list Course.t;
  projects : list Project.t;
  roles : list Role.t
}.
End Bundle.

Module Insight.
Record t : Type := {
  id : Js.value;
  specialization : string;
  market_size : string;
  growth_rate : string;
  avg_salary : string;
  key_trends : list string;
  major_companies : list string;
  future_outlook : string
}.
End Insight.

(* ================================================================== *)
(** ** Component state, console and network *)
(* ================================================================== *)

(** The six [useState] cells of [App]. [levelDetails] is [None] for
    [null]. *)
Record State : Type := {
  roadmapData : list RoadmapLevel.t;
  selectedLevel : Js.value;
  levelDetails : option Bundle.t;
  industryInsights : list Insight.t;
  loading : bool;
  activeTab : string
}.

(** The initial values passed to [useState]. *)
Definition initial_state : State :=
  {| roadmapData := [];
     selectedLevel := Js.Null;
     levelDetails := None;
     industryInsights := [];
     loading := true;
     activeTab := "roadmap" |}.

(** A rejection reason or thrown value. *)
Definition Error : Type := string.

(** What the component can touch: its state, the diagnostic log written
    by [console.error] (message and error, oldest first) and the GET
    requests sent so far (URLs, oldest first). *)
Record World : Type := {
  state : State;
  console : list (string * Error);
  requests : list string
}.

Definition initial_world : World :=
  {| state := initial_state; console := []; requests := [] |}.

(** An axios response object; only [data] is read.  The body of a
    successful reply is taken to be a document of the endpoint's type: a
    success with an empty or null body is not a value of this type. *)
Record Response (A : Type) : Type := { data : A }.
Arguments data {A} _.

(** How a promise settles. *)
Inductive Settled (A : Type) : Type :=
| Fulfilled (a : A)
| Rejected (reason : Error).
Arguments Fulfilled {A} a.
Arguments Rejected {A} reason.

(** A promise, described by the way it will settle and the time at which
    it does.  The time only orders rejections inside [Promise_all]. *)
Record Promise (A : Type) : Type := {
  outcome : Settled A;
  settles_at : nat
}.
Arguments outcome {A} _.
Arguments settles_at {A} _.

(** [Promise.all([p, q])]: fulfils with both values once both have
    fulfilled, rejects with the reason of the first input to reject. *)
Definition Promise_all {A B : Type} (p : Promise A) (q : Promise B)
  : Promise (A * B) :=
  match outcome p, outcome q with
  | Fulfilled a, Fulfilled b =>
      {| outcome := Fulfilled (a, b);
         settles_at := Nat.max (settles_at p) (settles_at q) |}
  | Rejected e, Fulfilled _ =>
      {| outcome := Rejected e; settles_at := settles_at p |}
  | Fulfilled _, Rejected e =>
      {| outcome := Rejected e; settles_at := settles_at q |}
  | Rejected e1, Rejected e2 =>
      if Nat.ltb (settles_at q) (settles_at p)
      then {| outcome := Rejected e2; settles_at := settles_at q |}
      else {| outcome := Rejected e1; settles_at := settles_at p |}
  end.

(* ================================================================== *)
(** ** A monad for async functions *)
(* ================================================================== *)

(** Running a piece of an async function from a world either finishes
    (with a value or a thrown error) or stops at an [await], handing back
    the world reached and the rest of the function, which the event loop
    resumes later from whatever world exists then. *)
Inductive Step (A : Type) : Type :=
| Finished (r : Error + A) (w : World)
| Suspended (w : World) (k : World -> Step A).
Arguments Finished {A} r w.
Arguments Suspended {A} w k.

Definition M (A : Type) : Type := World -> Step A.

Definition ret {A : Type} (a : A) : M A :=
  fun w => Finished (inr a) w.

Fixpoint bind_step {A B : Type} (s : Step A) (f : A -> M B) : Step B :=
  match s with
  | Finished (inr a) w => f a w
  | Finished (inl e) w => Finished (inl e) w
  | Suspended w k => Suspended w (fun w' => bind_step (k w') f)
  end.

Definition bind {A B : Type} (m : M A) (f : A -> M B) : M B :=
  fun w => bind_step (m w) f.

(** [try { body } catch (error) { handler }]: effects of [body] that
    happened before the throw stay. *)
Fixpoint catch_step {A : Type} (s : Step A) (handler : Error -> M A)
  : Step A :=
  match s with
  | Finished (inr a) w => Finished (inr a) w
  | Finished (inl e) w => handler e w
  | Suspended w k => Suspended w (fun w' => catch_step (k w') handler)
  end.

Definition try_catch {A : Type} (body : M A) (handler : Error -> M A)
  : M A :=
  fun w => catch_step (body w) handler.

(** [await p]: suspend; on resumption continue with the value of [p] or
    throw its rejection reason. *)
Definition await {A : Type} (p : Promise A) : M A :=
  fun w =>
    Suspended w
      (fun w' =>
         match outcome p with
         | Fulfilled a => Finished (inr a) w'
         | Rejected e => Finished (inl e) w'
         end).

Declare Scope async_scope.
Delimit Scope async_scope with async.
Notation "x <- m ;; k" := (bind m (fun x => k))
  (at level 61, m at next level, right associativity) : async_scope.
Notation "m ;; k" := (bind m (fun _ => k))
  (at level 61, right associativity) : async_scope.
Local Open Scope async_scope.

Definition update (f : State -> State) : M unit :=
  fun w =>
    Finished (inr tt)
      {| state := f (state w); console := console w;
         requests := requests w |}.

Definition setRoadmapData (v : list RoadmapLevel.t) : M unit :=
  update (fun s =>
    {| roadmapData := v; selectedLevel := selectedLevel s;
       levelDetails := levelDetails s;
       industryInsights := industryInsights s;
       loading := loading s; activeTab := activeTab s |}).

Definition setSelectedLevel (v : Js.value) : M unit :=
  update (fun s =>
    {| roadmapData := roadmapData s; selectedLevel := v;
       levelDetails := levelDetails s;
       industryInsights := industryInsights s;
       loading := loading s; activeTab := activeTab s |}).

Definition setLevelDetails (v : option Bundle.t) : M unit :=
  update (fun s =>
    {| roadmapData := roadmapData s; selectedLevel := selectedLevel s;
       levelDetails := v;
       industryInsights := industryInsights s;
       loading := loading s; activeTab := activeTab s |}).

Definition setIndustryInsights (v : list Insight.t) : M unit :=
  update (fun s =>
    {| roadmapData := roadmapData s; selectedLevel := selectedLevel s;
       levelDetails := levelDetails s;
       industryInsights := v;
       loading := loading s; activeTab := activeTab s |}).

Definition setLoading (v : bool) : M unit :=
  update (fun s =>
    {| roadmapData := roadmapData s; selectedLevel := selectedLevel s;
       levelDetails := levelDetails s;
       industryInsights := industryInsights s;
       loading := v; activeTab := activeTab s |}).

Definition setActiveTab (v : string) : M unit :=
  update (fun s =>
    {| roadmapData := roadmapData s; selectedLevel := selectedLevel s;
       levelDetails := levelDetails s;
       industryInsights := industryInsights s;
       loading := loading s; activeTab := v |}).

(** [console.error(message, error)]. *)
Definition console_error (message : string) (error : Error) : M unit :=
  fun w =>
    Finished (inr tt)
      {| state := state w; console := console w ++ [(message, error)];
         requests := requests w |}.

(** [axios.get(url)]: sends the request and returns its promise at once.
    [reply] is the promise as the backend will settle it. *)
Definition axios_get {A : Type} (url : string)
  (reply : Promise (Response A)) : M (Promise (Response A)) :=
  fun w =>
    Finished (inr reply)
      {| state := state w; console := console w;
         requests := requests w ++ [url] |}.

(* ================================================================== *)
(** ** Lookup tables keyed by difficulty *)
(* ================================================================== *)

(** A [switch] compares with [===], case by case, top to bottom. *)
Definition getLevelColor (difficulty : Js.value) : string :=
  if Js.strict_eq difficulty (Js.Str "beginner")
  then "from-green-400 to-green-600"
  else if Js.strict_eq difficulty (Js.Str "intermediate")
  then "from-blue-400 to-blue-600"
  else if Js.strict_eq difficulty (Js.Str "advanced")
  then "from-purple-400 to-purple-600"
  else if Js.strict_eq difficulty (Js.Str "expert")
  then "from-red-400 to-red-600"
  else "from-gray-400 to-gray-600".

Definition getDifficultyIcon (difficulty : Js.value) : string :=
  if Js.strict_eq difficulty (Js.Str "beginner") then "🌱"
  else if Js.strict_eq difficulty (Js.Str "intermediate") then "🚀"
  else if Js.strict_eq difficulty (Js.Str "advanced") then "⚡"
  else if Js.strict_eq difficulty (Js.Str "expert") then "👑"
  else "📚".

(** The four cases of the two switches. *)
Definition known_difficulty (difficulty : Js.value) : Prop :=
  difficulty = Js.Str "beginner"
  \/ difficulty = Js.Str "intermediate"
  \/ difficulty = Js.Str "advanced"
  \/ difficulty = Js.Str "expert".

(* ================================================================== *)
(** ** What the component renders *)
(* ================================================================== *)

(** The three kinds of [onClick] closures in the markup. *)
Inductive Handler : Type :=
| OnTab (tab : string)           (* () => setActiveTab(tab) *)
| OnLevel (levelId : Js.value)   (* () => fetchLevelDetails(level.id) *)
| OnClose.       (* () => {setSelectedLevel(null); setLevelDetails(null);} *)

Definition Handler_eq_dec (a b : Handler) : {a = b} + {a <> b}.
Proof.
  decide equality.
  - apply string_dec.
  - apply Js.value_eq_dec.
Defined.

(** One entry of [roadmapData.map((level, index) => ...)]. *)
Record LevelCard : Type := {
  card_key : Js.value;
  card_row_class : string;
  card_side_class : string;
  card_onClick : Handler;
  card_gradient : string;
  card_icon : string;
  card_level : string;
  card_difficulty : string;
  card_duration : string;
  card_title : string;
  card_description : string;
  card_skills : string;
  card_projects : string;
  card_circle_class : string;
  card_circle_label : string
}.

(** One entry of [industryInsights.map(insight => ...)]. *)
Record InsightCard : Type := {
  insight_key : Js.value;
  insight_heading : string;
  insight_market_size : string;
  insight_growth_rate : string;
  insight_avg_salary : string;
  insight_trends : list string;
  insight_companies : list string;
  insight_outlook : string
}.

(** One box of a section of the detail modal. *)
Record DetailItem : Type := {
  item_key : Js.value;
  item_title : string;
  item_text : string;
  item_tags : list string
}.

Record DetailsModal : Type := {
  modal_heading : string;
  modal_onClose : Handler;
  modal_description : string;
  modal_skills : list DetailItem;
  modal_courses : list DetailItem;
  modal_projects : list DetailItem;
  modal_roles : list DetailItem;
  modal_milestones : list string
}.

Record NavButton : Type := {
  nav_label : string;
  nav_onClick : Handler;
  nav_class : string
}.

Inductive Panel : Type :=
| RoadmapPanel (cards : list LevelCard)
| InsightsPanel (cards : list InsightCard).

(** What the expression [{selectedLevel && <LevelDetails />}] can leave
    in the page. *)
Inductive Overlay : Type :=
| ModalNode (m : DetailsModal)
| TextNode (text : string).

Inductive Page : Type :=
| LoadingScreen
| MainPage (nav : list NavButton) (content : list Panel)
    (overlay : list Overlay).

(** [l.map((x, index) => f(x, index))], counting from [index]. *)
Fixpoint map_from {A B : Type} (f : A -> nat -> B) (index : nat)
  (l : list A) : list B :=
  match l with
  | [] => []
  | x :: rest => f x index :: map_from f (S index) rest
  end.

Definition count_text (n : nat) : string :=
  Js.child_text (Js.Num (Z.of_nat n)).

Definition level_card (s : State) (level : RoadmapLevel.t) (index : nat)
  : LevelCard :=
  {| card_key := RoadmapLevel.id level;
     card_row_class :=
       if Nat.eqb (index mod 2) 0 then "justify-start" else "justify-end";
     card_side_class :=
       if Nat.eqb (index mod 2) 0 then "mr-auto" else "ml-auto";
     card_onClick := OnLevel (RoadmapLevel.id level);
     card_gradient := getLevelColor (RoadmapLevel.difficulty_level level);
     card_icon := getDifficultyIcon (RoadmapLevel.difficulty_level level);
     card_level :=
       "Level " ++ Js.child_text (RoadmapLevel.level_number level);
     card_difficulty :=
       Js.child_text (RoadmapLevel.difficulty_level level);
     card_duration :=
       Js.child_text (RoadmapLevel.estimated_duration_months level)
       ++ " months";
     card_title := RoadmapLevel.title level;
     card_description := RoadmapLevel.description level;
     card_skills :=
       count_text (length (RoadmapLevel.skills_to_develop level))
       ++ " skills";
     card_projects :=
       count_text (length (RoadmapLevel.projects_to_complete level))
       ++ " projects";
     card_circle_class :=
       if Js.strict_eq (selectedLevel s) (RoadmapLevel.id level)
       then "border-yellow-400" else "border-gray-300";
     card_circle_label := Js.child_text (RoadmapLevel.level_number level)
  |}.

Definition VisualRoadmap (s : State) : list LevelCard :=
  map_from (level_card s) 0 (roadmapData s).

Definition insight_card (insight : Insight.t) : InsightCard :=
  {| insight_key := Insight.id insight;
     insight_heading :=
       Js.replace_underscore (Insight.specialization insight);
     insight_market_size := Insight.market_size insight;
     insight_growth_rate := Insight.growth_rate insight;
     insight_avg_salary := Insight.avg_salary insight;
     insight_trends := Insight.key_trends insight;
     insight_companies := Insight.major_companies insight;
     insight_outlook := Insight.future_outlook insight |}.

Definition IndustryInsights (s : State) : list InsightCard :=
  map insight_card (industryInsights s).

Definition skill_item (skill : Skill.t) : DetailItem :=
  {| item_key := Skill.id skill;
     item_title := Skill.name skill;
     item_text := Skill.description skill;
     item_tags :=
       [Skill.category skill;
        Js.child_text (Skill.estimated_time_hours skill) ++ "h"] |}.

Definition course_item (course : Course.t) : DetailItem :=
  {| item_key := Course.id course;
     item_title := Course.title course;
     item_text := Course.description course;
     item_tags :=
       [Course.provider course;
        Js.child_text (Course.duration_weeks course) ++ "w";
        Course.cost course] |}.

Definition project_item (project : Project.t) : DetailItem :=
  {| item_key := Project.id project;
     item_title := Project.title project;
     item_text := Project.description project;
     item_tags :=
       (Js.child_text (Project.estimated_time_weeks project) ++ "w")
       :: Project.technologies_used project |}.

Definition role_item (role : Role.t) : DetailItem :=
  {| item_key := Role.id role;
     item_title := Role.title role;
     item_text := Role.description role;
     item_tags :=
       [Role.salary_range role;
        Role.industry_demand role ++ " demand"] |}.

(** [LevelDetails]: [None] is the [return null] of its first line. *)
Definition LevelDetails (s : State) : option DetailsModal :=
  match levelDetails s with
  | None => None
  | Some details =>
      Some
        {| modal_heading :=
             RoadmapLevel.title (Bundle.level details) ++ " - Level "
             ++ Js.child_text
                  (RoadmapLevel.level_number (Bundle.level details));
           modal_onClose := OnClose;
           modal_description :=
             RoadmapLevel.description (Bundle.level details);
           modal_skills := map skill_item (Bundle.skills details);
           modal_courses := map course_item (Bundle.courses details);
           modal_projects := map project_item (Bundle.projects details);
           modal_roles := map role_item (Bundle.roles details);
           modal_milestones :=
             RoadmapLevel.milestone_achievements (Bundle.level details)
        |}
  end.

Definition tab_class (s : State) (tab : string) : string :=
  if String.eqb (activeTab s) tab
  then "bg-blue-500 text-white"
  else "text-gray-300 hover:text-white hover:bg-white/10".

Definition navigation (s : State) : list NavButton :=
  [ {| nav_label := "📍 Visual Roadmap";
       nav_onClick := OnTab "roadmap";
       nav_class := tab_class s "roadmap" |};
    {| nav_label := "📊 Industry Insights";
       nav_onClick := OnTab "insights";
       nav_class := tab_class s "insights" |} ].

(** [{cond && <Panel />}] with a boolean [cond]: [false] renders
    nothing. *)
Definition content (s : State) : list Panel :=
  (if String.eqb (activeTab s) "roadmap"
   then [RoadmapPanel (VisualRoadmap s)] else [])
  ++
  (if String.eqb (activeTab s) "insights"
   then [InsightsPanel (IndustryInsights s)] else []).

(** [{selectedLevel && <LevelDetails />}]: a truthy [selectedLevel]
    yields the component, whose [null] renders nothing; a falsy one is
    itself the child, and React prints it when it is a number. *)
Definition overlay (s : State) : list Overlay :=
  if Js.truthy (selectedLevel s)
  then match LevelDetails s with
       | Some m => [ModalNode m]
       | None => []
       end
  else match selectedLevel s with
       | Js.Num _ => [TextNode (Js.child_text (selectedLevel s))]
       | _ => []
       end.

(** The value returned by [App]. *)
Definition App (s : State) : Page :=
  if loading s then LoadingScreen
  else MainPage (navigation s) (content s) (overlay s).

(** Observations on a page. *)
Definition panels (p : Page) : list Panel :=
  match p with
  | LoadingScreen => []
  | MainPage _ c _ => c
  end.

Definition modals (p : Page) : list DetailsModal :=
  match p with
  | LoadingScreen => []
  | MainPage _ _ o =>
      flat_map (fun node => match node with
                            | ModalNode m => [m]
                            | TextNode _ => []
                            end) o
  end.

Definition panel_handlers (p : Panel) : list Handler :=
  match p with
  | RoadmapPanel cards => map card_onClick cards
  | InsightsPanel _ => []
  end.

(** Every [onClick] the user can reach on a page. *)
Definition clickable (p : Page) : list Handler :=
  match p with
  | LoadingScreen => []
  | MainPage nav c _ =>
      map nav_onClick nav ++ flat_map panel_handlers c
      ++ map modal_onClose (modals p)
  end.

(* ================================================================== *)
(** ** The fetchers and the event loop *)
(* ================================================================== *)

(** World-level abbreviations used in statements. *)
Definition sent (urls : list string) (w : World) : World :=
  {| state := state w; console := console w;
     requests := requests w ++ urls |}.

Definition logged (message : string) (error : Error) (w : World) : World :=
  {| state := state w; console := console w ++ [(message, error)];
     requests := requests w |}.

Definition with_state (s : State) (w : World) : World :=
  {| state := s; console := console w; requests := requests w |}.

(** A running component: its world and the async calls that are
    suspended at an [await], oldest first. *)
Record System : Type := {
  world : World;
  pending : list (M unit)
}.

(** Calling an async function from the event loop: it runs up to its
    first [await] (or to its end) and the caller does not wait. *)
Definition call (m : M unit) (s : System) : System :=
  match m (world s) with
  | Finished _ w => {| world := w; pending := pending s |}
  | Suspended w k => {| world := w; pending := pending s ++ [k] |}
  end.

Fixpoint remove_nth {A : Type} (i : nat) (l : list A) : list A :=
  match i, l with
  | _, [] => []
  | O, _ :: rest => rest
  | S j, x :: rest => x :: remove_nth j rest
  end.

(** What the environment does: the user clicks an element that is on the
    page, or the awaited promise of a suspended call settles and the call
    is resumed.  [reply] is how the backend will answer the request that
    the click may send. *)
Inductive Event : Type :=
| Click (h : Handler) (reply : Promise (Response Bundle.t))
| Resume (i : nat).

(* ================================================================== *)
(** ** The backend, and sample documents *)
(* ================================================================== *)

(** A level-detail endpoint: the reply to the request for each id. *)
Definition Backend : Type := Js.value -> Promise (Response Bundle.t).

(** Modelled from the spec: the level-detail endpoint of the backend,
    whose code is not among the front-end sources.  The spec gives one
    property of it: given a level-detail request for id X, the returned
    bundle's level.id equals X. *)
Definition returns_requested_level (backend : Backend) : Prop :=
  forall X response,
    outcome (backend X) = Fulfilled response ->
    RoadmapLevel.id (Bundle.level (data response)) = X.

Definition resolves {A : Type} (a : A) (time : nat)
  : Promise (Response A) :=
  {| outcome := Fulfilled {| data := a |}; settles_at := time |}.

Definition rejects {A : Type} (e : Error) (time : nat)
  : Promise (Response A) :=
  {| outcome := Rejected e; settles_at := time |}.

(** A backend that serves the first bundle of a catalogue whose level
    has the requested id, and answers 404 otherwise. *)
Definition catalogue_backend (catalogue : list Bundle.t) : Backend :=
  fun X =>
    match find (fun b =>
                  Js.strict_eq (RoadmapLevel.id (Bundle.level b)) X)
               catalogue with
    | Some b => resolves b 1
    | None => rejects "Request failed with status code 404" 1
    end.

Module Sample.

Definition backend_url : Js.value := Js.Str "http://localhost:8001".

Definition level1 : RoadmapLevel.t :=
  {| RoadmapLevel.id := Js.Num 1;
     RoadmapLevel.level_number := Js.Num 1;
     RoadmapLevel.title := "IoT Foundations";
     RoadmapLevel.description := "Electronics and networking basics";
     RoadmapLevel.difficulty_level := Js.Str "beginner";
     RoadmapLevel.estimated_duration_months := Js.Num 3;
     RoadmapLevel.skills_to_develop := ["s1"; "s2"];
     RoadmapLevel.projects_to_complete := ["p1"];
     RoadmapLevel.specialization_paths := ["smart_home"];
     RoadmapLevel.milestone_achievements := ["First sensor node"] |}.

Definition level2 : RoadmapLevel.t :=
  {| RoadmapLevel.id := Js.Num 2;
     RoadmapLevel.level_number := Js.Num 2;
     RoadmapLevel.title := "Connected Devices";
     RoadmapLevel.description := "Protocols and cloud platforms";
     RoadmapLevel.difficulty_level := Js.Str "intermediate";
     RoadmapLevel.estimated_duration_months := Js.Num 6;
     RoadmapLevel.skills_to_develop := ["s3"];
     RoadmapLevel.projects_to_complete := ["p2"; "p3"];
     RoadmapLevel.specialization_paths := ["industrial_iot"];
     RoadmapLevel.milestone_achievements := ["Fleet of ten devices"] |}.

(** A level whose id is the number zero. *)
Definition level0 : RoadmapLevel.t :=
  {| RoadmapLevel.id := Js.Num 0;
     RoadmapLevel.level_number := Js.Num 0;
     RoadmapLevel.title := "Orientation";
     RoadmapLevel.description := "";
     RoadmapLevel.difficulty_level := Js.Str "novice";
     RoadmapLevel.estimated_duration_months := Js.Num 1;
     RoadmapLevel.skills_to_develop := [];
     RoadmapLevel.projects_to_complete := [];
     RoadmapLevel.specialization_paths := [];
     RoadmapLevel.milestone_achievements := [] |}.

Definition bundle_of (level : RoadmapLevel.t) : Bundle.t :=
  {| Bundle.level := level;
     Bundle.skills :=
       [ {| Skill.id := Js.Str "s3"; Skill.name := "MQTT";
            Skill.description := "Publish and subscribe";
            Skill.category := "networking";
            Skill.estimated_time_hours := Js.Num 20 |} ];
     Bundle.courses := [];
     Bundle.projects := [];
     Bundle.roles :=
       [ {| Role.id := Js.Str "r1"; Role.title := "IoT Developer";
            Role.description := "Builds device firmware";
            Role.salary_range := "$70k-$95k";
            Role.industry_demand := "high" |} ] |}.

Definition insight1 : Insight.t :=
  {| Insight.id := Js.Str "i1";
     Insight.specialization := "smart_home";
     Insight.market_size := "$80B";
     Insight.growth_rate := "12%";
     Insight.avg_salary := "$90k";
     Insight.key_trends := ["Matter"];
     Insight.major_companies := ["Acme"];
     Insight.future_outlook := "Growing" |}.

Definition levels : list RoadmapLevel.t := [level1; level2].
Definition insights : list Insight.t := [insight1].
Definition catalogue : list Bundle.t :=
  [bundle_of level1; bundle_of level2].

End Sample.

Section Component.

(** [process.env.REACT_APP_BACKEND_URL]: a string, or [undefined] when
    the variable is not set. *)
Variable BACKEND_URL : Js.value.

Definition API : string := Js.to_string BACKEND_URL ++ "/api".

Definition roadmap_url : string := API ++ "/roadmap".
Definition insights_url : string := API ++ "/industry-insights".
Definition level_url (levelId : Js.value) : string :=
  API ++ "/roadmap/level/" ++ Js.to_string levelId.

Definition fetchData
  (roadmapReply : Promise (Response (list RoadmapLevel.t)))
  (insightsReply : Promise (Response (list Insight.t))) : M unit :=
  try_catch
    (p1 <- axios_get roadmap_url roadmapReply ;;
     p2 <- axios_get insights_url insightsReply ;;
     res <- await (Promise_all p1 p2) ;;
     let '(roadmapRes, insightsRes) := res in
     setRoadmapData (data roadmapRes) ;;
     setIndustryInsights (data insightsRes) ;;
     setLoading false)
    (fun error =>
       console_error "Error fetching data:" error ;;
       setLoading false).

Definition fetchLevelDetails (levelId : Js.value)
  (reply : Promise (Response Bundle.t)) : M unit :=
  try_catch
    (p <- axios_get (level_url levelId) reply ;;
     response <- await p ;;
     setLevelDetails (Some (data response)) ;;
     setSelectedLevel levelId)
    (fun error =>
       console_error "Error fetching level details:" error).

(** The body of each [onClick]. *)
Definition run_handler (h : Handler)
  (reply : Promise (Response Bundle.t)) : M unit :=
  match h with
  | OnTab tab => setActiveTab tab
  | OnLevel levelId => fetchLevelDetails levelId reply
  | OnClose => setSelectedLevel Js.Null ;; setLevelDetails None
  end.

(** The component after its first render and its [useEffect]:
    [fetchData] has been called and waits for its two replies. *)
Definition mount
  (roadmapReply : Promise (Response (list RoadmapLevel.t)))
  (insightsReply : Promise (Response (list Insight.t))) : System :=
  call (fetchData roadmapReply insightsReply)
    {| world := initial_world; pending := [] |}.

(** One turn of the event loop; [None] when the event cannot happen
    (the element is not on the page, no such suspended call). *)
Definition step (s : System) (ev : Event) : option System :=
  match ev with
  | Click h reply =>
      if in_dec Handler_eq_dec h (clickable (App (state (world s))))
      then Some (call (run_handler h reply) s)
      else None
  | Resume i =>
      match nth_error (pending s) i with
      | Some k =>
          Some (call k {| world := world s;
                          pending := remove_nth i (pending s) |})
      | None => None
      end
  end.

Inductive reachable : System -> Prop :=
| reachable_mount roadmapReply insightsReply :
    reachable (mount roadmapReply insightsReply)
| reachable_step s ev s' :
    reachable s -> step s ev = Some s' -> reachable s'.

(** [awaits m k]: [k] is the rest of a call of [m] suspended at its
    [await]. *)
Definition awaits (m : M unit) (k : M unit) : Prop :=
  exists w0 w1, m w0 = Suspended w1 k.

Fixpoint run (s : System) (evs : list Event) : option System :=
  match evs with
  | [] => Some s
  | ev :: rest =>
      match step s ev with
      | Some s' => run s' rest
      | None => None
      end
  end.

(** The fetch on mount is the first pending call of [mount]; these run a
    whole session from it. *)
Definition session
  (roadmapReply : Promise (Response (list RoadmapLevel.t)))
  (insightsReply : Promise (Response (list Insight.t)))
  (evs : list Event) : option System :=
  run (mount roadmapReply insightsReply) evs.

(** A suspended call whose awaited promise rejects: the message its
    [catch] block logs and the reason it is handed. *)
Inductive failing : M unit -> string -> Error -> Prop :=
| failing_startup p1 p2 k e :
    awaits (fetchData p1 p2) k ->
    outcome (Promise_all p1 p2) = Rejected e ->
    failing k "Error fetching data:" e
| failing_level levelId reply k e :
    awaits (fetchLevelDetails levelId reply) k ->
    outcome reply = Rejected e ->
    failing k "Error fetching level details:" e.

(** The two values a tab button can store. *)
Definition tab_ok (s : State) : Prop :=
  activeTab s = "roadmap" \/ activeTab s = "insights".

(** What can be suspended while the loading flag has a given value: the
    startup fetch, or, once loading is over, level-detail fetches. *)
Definition pending_ok (flag : bool) (calls : list (M unit)) : Prop :=
  Forall
    (fun k =>
       (exists p1 p2, awaits (fetchData p1 p2) k)
       \/ (flag = false
           /\ exists levelId reply,
               awaits (fetchLevelDetails levelId reply) k))
    calls.

Definition invariant (s : System) : Prop :=
  tab_ok (state (world s))
  /\ pending_ok (loading (state (world s))) (pending s).

(** The two kinds of suspended calls. *)
Definition startup_call (k : M unit) : Prop :=
  exists p1 p2, awaits (fetchData p1 p2) k.

Definition level_call (k : M unit) : Prop :=
  exists levelId reply, awaits (fetchLevelDetails levelId reply) k.

(** The two phases of a session.  While the loading flag is up nothing
    has happened yet beyond the two startup requests; afterwards only
    level-detail calls can be in flight. *)
Definition phase_ok (s : System) : Prop :=
  if loading (state (world s))
  then state (world s) = initial_state
       /\ console (world s) = []
       /\ requests (world s) = [roadmap_url; insights_url]
       /\ exists k, pending s = [k] /\ startup_call k
  else Forall level_call (pending s).

(** The requests sent so far: the two startup requests, then one
    level-detail request per click, each for the id of a loaded level. *)
Definition requests_ok (w : World) : Prop :=
  exists ids,
    requests w = roadmap_url :: insights_url :: map level_url ids
    /\ Forall
         (fun X => In X (map RoadmapLevel.id (roadmapData (state w))))
         ids.

Definition well_formed (s : System) : Prop :=
  phase_ok s /\ requests_ok (world s).

(* ================================================================== *)
(** ** The two fetchers, call by call *)
(* ================================================================== *)

(** Exposes the rest of a suspended call of one of the two fetchers. *)
Ltac rest_of H :=
  let w0 := fresh "w0" in
  let w1 := fresh "w1" in
  destruct H as [w0 [w1 H]];
  cbv [fetchData fetchLevelDetails try_catch bind axios_get bind_step
       catch_step await] in H;
  injection H as _ H; subst.

Lemma fetchData_suspends p1 p2 w :
  fetchData p1 p2 w
  = Suspended (sent [insights_url] (sent [roadmap_url] w))
      (fun w' =>
         catch_step
           (bind_step
              (match outcome (Promise_all p1 p2) with
               | Fulfilled a => Finished (inr a) w'
               | Rejected e => Finished (inl e) w'
               end)
              (fun res =>
                 let '(roadmapRes, insightsRes) := res in
                 setRoadmapData (data roadmapRes) ;;
                 setIndustryInsights (data insightsRes) ;;
                 setLoading false))
           (fun error =>
              console_error "Error fetching data:" error ;;
              setLoading false)).
Proof. reflexivity. Qed.

(** The rest of [fetchData] after its [await], from any world. *)
Lemma fetchData_resumed p1 p2 k w' :
  awaits (fetchData p1 p2) k ->
  k w' =
  match outcome (Promise_all p1 p2) with
  | Fulfilled (roadmapRes, insightsRes) =>
      Finished (inr tt)
        (with_state
           {| roadmapData := data roadmapRes;
              selectedLevel := selectedLevel (state w');
              levelDetails := levelDetails (state w');
              industryInsights := data insightsRes;
              loading := false;
              activeTab := activeTab (state w') |} w')
  | Rejected e =>
      Finished (inr tt)
        (with_state
           {| roadmapData := roadmapData (state w');
              selectedLevel := selectedLevel (state w');
              levelDetails := levelDetails (state w');
              industryInsights := industryInsights (state w');
              loading := false;
              activeTab := activeTab (state w') |}
           (logged "Error fetching data:" e w'))
  end.
Proof.
  intros H. rest_of H.
  destruct (outcome (Promise_all p1 p2)) as [[r i] | e]; reflexivity.
Qed.

(** The rest of [fetchLevelDetails] after its [await], from any world. *)
Lemma fetchLevelDetails_resumed levelId reply k w' :
  awaits (fetchLevelDetails levelId reply) k ->
  k w' =
  match outcome reply with
  | Fulfilled response =>
      Finished (inr tt)
        (with_state
           {| roadmapData := roadmapData (state w');
              selectedLevel := levelId;
              levelDetails := Some (data response);
              industryInsights := industryInsights (state w');
              loading := loading (state w');
              activeTab := activeTab (state w') |} w')
  | Rejected e =>
      Finished (inr tt) (logged "Error fetching level details:" e w')
  end.
Proof.
  intros H. rest_of H.
  destruct (outcome reply) as [r | e]; reflexivity.
Qed.

(** [Promise.all] rejects exactly when one of its inputs does, and then
    with the reason of one of them. *)
Lemma Promise_all_rejected {A B : Type} (p : Promise A) (q : Promise B) :
  (exists e, outcome p = Rejected e) \/ (exists e, outcome q = Rejected e) ->
  exists e,
    outcome (Promise_all p q) = Rejected e
    /\ (outcome p = Rejected e \/ outcome q = Rejected e).
Proof.
  unfold Promise_all.
  intros [[e H] | [e H]]; rewrite H;
    [ destruct (outcome q) as [b | e2] eqn:Hq
    | destruct (outcome p) as [a | e1] eqn:Hp ];
    try destruct (Nat.ltb (settles_at q) (settles_at p));
    cbn; eauto.
Qed.

Lemma Promise_all_fulfilled {A B : Type} (p : Promise A) (q : Promise B)
  a b :
  outcome p = Fulfilled a -> outcome q = Fulfilled b ->
  outcome (Promise_all p q) = Fulfilled (a, b).
Proof. intros Hp Hq. unfold Promise_all. rewrite Hp, Hq. reflexivity. Qed.

Lemma map_from_length {A B : Type} (f : A -> nat -> B) l :
  forall index, length (map_from f index l) = length l.
Proof.
  induction l as [| x rest IH]; intros index; cbn; [reflexivity |].
  now rewrite IH.
Qed.

Lemma map_from_nth {A B : Type} (f : A -> nat -> B) l :
  forall index n x,
    nth_error l n = Some x ->
    nth_error (map_from f index l) n = Some (f x (index + n)).
Proof.
  induction l as [| y rest IH]; intros index n x H.
  - destruct n; discriminate.
  - destruct n as [| n]; cbn in *.
    + injection H as ->. now rewrite Nat.add_0_r.
    + rewrite (IH (S index) n x H). now rewrite Nat.add_succ_r.
Qed.

Lemma VisualRoadmap_keys s :
  map card_key (VisualRoadmap s) = map RoadmapLevel.id (roadmapData s).
Proof.
  unfold VisualRoadmap. generalize 0.
  induction (roadmapData s) as [| level rest IH]; intros n; cbn;
    [reflexivity | now rewrite IH].
Qed.

Lemma IndustryInsights_keys s :
  map insight_key (IndustryInsights s)
  = map Insight.id (industryInsights s).
Proof.
  unfold IndustryInsights. rewrite map_map. reflexivity.
Qed.

(** C1. However the two startup requests settle, whether both succeed
    or either of them fails, the rest of [fetchData] runs to its end and
    leaves the loading flag false, from whatever world it is resumed in;
    so the call made on mount, once resumed, leaves nothing pending and
    the spinner is gone. *)
Theorem fetchData_clears_loading :
  forall p1 p2,
    (forall w, exists k,
        fetchData p1 p2 w
        = Suspended (sent [insights_url] (sent [roadmap_url] w)) k
        /\ forall w', exists w'',
            k w' = Finished (inr tt) w''
            /\ loading (state w'') = false)
    /\ exists s',
        step (mount p1 p2) (Resume 0) = Some s'
        /\ pending s' = []
        /\ loading (state (world s')) = false
        /\ App (state (world s')) <> LoadingScreen.
Proof.
  intros p1 p2. split.
  - intros w. eexists. split; [apply fetchData_suspends |].
    intros w'. cbn beta.
    destruct (outcome (Promise_all p1 p2)) as [[r i] | e];
      eexists; split; reflexivity.
  - unfold mount, call. rewrite fetchData_suspends. cbn.
    destruct (outcome (Promise_all p1 p2)) as [[r i] | e]; cbn;
      eexists; (split; [reflexivity |]); cbn; repeat split; discriminate.
Qed.

(** C3. When both startup requests succeed, the rest of [fetchData]
    leaves the loading flag false, [roadmapData] equal to the roadmap
    response and [industryInsights] equal to the insights response, and
    each panel renders one card per item of its collection, in order:
    as many cards as items, the n-th card keyed by the n-th item. *)
Theorem fetchData_success_renders_all_items :
  forall p1 p2 roadmapRes insightsRes,
    outcome p1 = Fulfilled roadmapRes ->
    outcome p2 = Fulfilled insightsRes ->
    forall w, exists k,
      fetchData p1 p2 w
      = Suspended (sent [insights_url] (sent [roadmap_url] w)) k
      /\ forall w', exists w'',
          k w' = Finished (inr tt) w''
          /\ loading (state w'') = false
          /\ roadmapData (state w'') = data roadmapRes
          /\ industryInsights (state w'') = data insightsRes
          /\ length (VisualRoadmap (state w''))
             = length (data roadmapRes)
          /\ map card_key (VisualRoadmap (state w''))
             = map RoadmapLevel.id (data roadmapRes)
          /\ length (IndustryInsights (state w''))
             = length (data insightsRes)
          /\ map insight_key (IndustryInsights (state w''))
             = map Insight.id (data insightsRes)
          /\ forall panel,
              In panel (panels (App (state w''))) ->
              match panel with
              | RoadmapPanel cards =>
                  length cards = length (data roadmapRes)
              | InsightsPanel cards =>
                  length cards = length (data insightsRes)
              end.
Proof.
  intros p1 p2 roadmapRes insightsRes H1 H2 w.
  eexists. split; [apply fetchData_suspends |].
  intros w'. cbn beta.
  rewrite (Promise_all_fulfilled p1 p2 _ _ H1 H2).
  eexists. split; [reflexivity |].
  cbn [state with_state loading roadmapData industryInsights].
  repeat split.
  - unfold VisualRoadmap. apply map_from_length.
  - apply VisualRoadmap_keys.
  - unfold IndustryInsights. apply length_map.
  - apply IndustryInsights_keys.
  - intros panel. unfold App, panels, content. cbn.
    destruct (String.eqb (activeTab (state w')) "roadmap");
      destruct (String.eqb (activeTab (state w')) "insights"); cbn;
      intros Hin;
      repeat (destruct Hin as [<- | Hin]; [| try contradiction]);
      try contradiction;
      try (unfold VisualRoadmap; apply map_from_length);
      try (unfold IndustryInsights; apply length_map).
Qed.

(** C9. The startup fetch is all or nothing: when either of its two
    requests fails, the rest of [fetchData] stores neither collection,
    whatever the other request returned; [roadmapData] and
    [industryInsights] are what they were, and after the call made on
    mount they are still the empty arrays they started as. *)
Theorem fetchData_failure_stores_nothing :
  forall p1 p2,
    (exists e, outcome p1 = Rejected e)
    \/ (exists e, outcome p2 = Rejected e) ->
    (forall w, exists k,
        fetchData p1 p2 w
        = Suspended (sent [insights_url] (sent [roadmap_url] w)) k
        /\ forall w', exists w'',
            k w' = Finished (inr tt) w''
            /\ roadmapData (state w'') = roadmapData (state w')
            /\ industryInsights (state w'')
               = industryInsights (state w'))
    /\ exists s',
        step (mount p1 p2) (Resume 0) = Some s'
        /\ roadmapData (state (world s')) = []
        /\ industryInsights (state (world s')) = [].
Proof.
  intros p1 p2 Hfail.
  destruct (Promise_all_rejected p1 p2 Hfail) as [e [He _]].
  split.
  - intros w. eexists. split; [apply fetchData_suspends |].
    intros w'. cbn beta. rewrite He.
    eexists. split; [reflexivity |]. split; reflexivity.
  - unfold mount, call. rewrite fetchData_suspends. cbn. rewrite He. cbn.
    eexists. split; [reflexivity |]. split; reflexivity.
Qed.

(** C10. [fetchLevelDetails] is atomic on error: sending the request
    touches no state cell, and when the request fails the rest of the
    call only writes the log; [selectedLevel], [levelDetails],
    [loading], [activeTab] and both collections keep the values they
    have when the failure arrives, so the page, and with it any open
    detail view, is rendered as before. *)
Theorem fetchLevelDetails_failure_keeps_state :
  forall levelId reply e,
    outcome reply = Rejected e ->
    forall w, exists k,
      fetchLevelDetails levelId reply w
      = Suspended (sent [level_url levelId] w) k
      /\ state (sent [level_url levelId] w) = state w
      /\ forall w', exists w'',
          k w' = Finished (inr tt) w''
          /\ state w'' = state w'
          /\ App (state w'') = App (state w')
          /\ modals (App (state w'')) = modals (App (state w')).
Proof.
  intros levelId reply e He w.
  eexists. split; [reflexivity |]. split; [reflexivity |].
  intros w'. cbn beta. rewrite He. cbn.
  eexists. split; [reflexivity |]. repeat split.
Qed.

(** C4. For every level of [roadmapData], with id X: its card, at the
    level's position in the roadmap panel, has the click handler that
    calls [fetchLevelDetails] with X; that call sends one GET request
    to the URL API/roadmap/level/X and waits; and when the request
    succeeds, the rest of the call stores the returned bundle in
    [levelDetails] and X in [selectedLevel], and changes nothing else. *)
Theorem level_card_click_fetches_and_stores :
  forall (s : State) (n : nat) (level : RoadmapLevel.t),
    nth_error (roadmapData s) n = Some level ->
    let X := RoadmapLevel.id level in
    (exists card,
        nth_error (VisualRoadmap s) n = Some card
        /\ card_onClick card = OnLevel X)
    /\ forall reply,
        run_handler (OnLevel X) reply = fetchLevelDetails X reply
        /\ forall w, exists k,
            fetchLevelDetails X reply w
            = Suspended
                (sent [API ++ "/roadmap/level/" ++ Js.to_string X] w) k
            /\ forall response,
                outcome reply = Fulfilled response ->
                forall w', exists w'',
                  k w' = Finished (inr tt) w''
                  /\ levelDetails (state w'') = Some (data response)
                  /\ selectedLevel (state w'') = X
                  /\ roadmapData (state w'') = roadmapData (state w')
                  /\ industryInsights (state w'')
                     = industryInsights (state w')
                  /\ loading (state w'') = loading (state w')
                  /\ activeTab (state w'') = activeTab (state w')
                  /\ console w'' = console w'
                  /\ requests w'' = requests w'.
Proof.
  intros s n level Hn X. split.
  - eexists. split.
    + unfold VisualRoadmap. apply (map_from_nth _ _ 0 n level Hn).
    + reflexivity.
  - intros reply. split; [reflexivity |].
    intros w. eexists. split.
    + reflexivity.
    + intros response Hr w'. cbn beta. rewrite Hr. cbn.
      eexists. split; [reflexivity |]. repeat split.
Qed.

(* ================================================================== *)
(** ** The lookup tables and the detail view *)
(* ================================================================== *)

Lemma strict_eq_false a b : a <> b -> Js.strict_eq a b = false.
Proof.
  intros H. unfold Js.strict_eq.
  destruct (Js.value_eq_dec a b); [contradiction | reflexivity].
Qed.

Lemma strict_eq_true a b : Js.strict_eq a b = true -> a = b.
Proof.
  unfold Js.strict_eq.
  destruct (Js.value_eq_dec a b); [trivial | discriminate].
Qed.

(** C8. [getLevelColor] and [getDifficultyIcon] are total tables over
    the difficulty: each of 'beginner', 'intermediate', 'advanced' and
    'expert' gets its gradient class and its icon, and every other
    value, string or not, gets the defaults 'from-gray-400 to-gray-600'
    and the books icon. *)
Theorem difficulty_tables :
  (getLevelColor (Js.Str "beginner") = "from-green-400 to-green-600"
   /\ getLevelColor (Js.Str "intermediate") = "from-blue-400 to-blue-600"
   /\ getLevelColor (Js.Str "advanced") = "from-purple-400 to-purple-600"
   /\ getLevelColor (Js.Str "expert") = "from-red-400 to-red-600")
  /\ (getDifficultyIcon (Js.Str "beginner") = "🌱"
      /\ getDifficultyIcon (Js.Str "intermediate") = "🚀"
      /\ getDifficultyIcon (Js.Str "advanced") = "⚡"
      /\ getDifficultyIcon (Js.Str "expert") = "👑")
  /\ forall difficulty,
      difficulty <> Js.Str "beginner" ->
      difficulty <> Js.Str "intermediate" ->
      difficulty <> Js.Str "advanced" ->
      difficulty <> Js.Str "expert" ->
      getLevelColor difficulty = "from-gray-400 to-gray-600"
      /\ getDifficultyIcon difficulty = "📚".
Proof.
  split; [repeat split |]. split; [repeat split |].
  intros difficulty Hb Hi Ha He.
  unfold getLevelColor, getDifficultyIcon.
  rewrite (strict_eq_false _ _ Hb), (strict_eq_false _ _ Hi),
    (strict_eq_false _ _ Ha), (strict_eq_false _ _ He).
  split; reflexivity.
Qed.

Lemma modals_App s :
  modals (App s) =
  if loading s then []
  else if Js.truthy (selectedLevel s)
       then match LevelDetails s with
            | Some m => [m]
            | None => []
            end
       else [].
Proof.
  unfold App, modals, overlay.
  destruct (loading s); [reflexivity |].
  destruct (Js.truthy (selectedLevel s)).
  - destruct (LevelDetails s); reflexivity.
  - destruct (selectedLevel s); reflexivity.
Qed.

(** The gate of the detail view, as written.  A page never holds more
    than one detail view, and it holds exactly one precisely when the
    page is past loading, [selectedLevel] is truthy (the test of
    [selectedLevel &&]) and [levelDetails] is not null.  A successful
    selection of level X stores X and the bundle, so it opens exactly
    one view on a loaded page whenever X is truthy.  The close button of
    a view carries the handler that sets [selectedLevel] and
    [levelDetails] to null, after which no detail view is rendered. *)
Theorem detail_view_opens_once_and_closes :
  (forall s, length (modals (App s)) <= 1)
  /\ (forall s,
         length (modals (App s)) = 1
         <-> loading s = false
             /\ Js.truthy (selectedLevel s) = true
             /\ levelDetails s <> None)
  /\ (forall levelId reply response,
         outcome reply = Fulfilled response ->
         forall w, exists k,
           fetchLevelDetails levelId reply w
           = Suspended (sent [level_url levelId] w) k
           /\ forall w', exists w'',
               k w' = Finished (inr tt) w''
               /\ selectedLevel (state w'') = levelId
               /\ levelDetails (state w'') = Some (data response)
               /\ (loading (state w') = false ->
                   Js.truthy levelId = true ->
                   length (modals (App (state w''))) = 1))
  /\ (forall s m, In m (modals (App s)) -> modal_onClose m = OnClose)
  /\ (forall reply w, exists w',
         run_handler OnClose reply w = Finished (inr tt) w'
         /\ selectedLevel (state w') = Js.Null
         /\ levelDetails (state w') = None
         /\ modals (App (state w')) = []).
Proof.
  assert (Hone : forall s,
             length (modals (App s)) = 1
             <-> loading s = false
                 /\ Js.truthy (selectedLevel s) = true
                 /\ levelDetails s <> None).
  { intros s. rewrite modals_App.
    destruct (loading s); cbn; [intuition discriminate |].
    destruct (Js.truthy (selectedLevel s)); cbn; [| intuition discriminate].
    unfold LevelDetails.
    destruct (levelDetails s); cbn; intuition congruence. }
  split; [| split; [exact Hone | split; [| split]]].
  - intros s. rewrite modals_App.
    destruct (loading s); cbn; [lia |].
    destruct (Js.truthy (selectedLevel s)); cbn; [| lia].
    destruct (LevelDetails s); cbn; lia.
  - intros levelId reply response Hr w.
    eexists. split; [reflexivity |].
    intros w'. cbn beta. rewrite Hr. cbn.
    eexists. split; [reflexivity |]. split; [reflexivity |].
    split; [reflexivity |].
    intros Hl Ht. apply Hone. cbn. repeat split; try assumption.
    discriminate.
  - intros s m. rewrite modals_App.
    destruct (loading s); [contradiction |].
    destruct (Js.truthy (selectedLevel s)); [| contradiction].
    unfold LevelDetails.
    destruct (levelDetails s); [| contradiction].
    intros [<- | []]. reflexivity.
  - intros reply w. eexists. split; [reflexivity |]. cbn.
    repeat split. rewrite modals_App. cbn.
    destruct (loading (state w)); reflexivity.
Qed.

(** C5. Against a backend that answers a level-detail request for id X
    with a bundle whose level.id is X: when the request sent by
    [fetchLevelDetails] for X succeeds, the bundle the call stores in
    [levelDetails] has level.id equal to X, and the modal that
    [LevelDetails] renders from it is headed by that level's title. *)
Theorem stored_bundle_is_the_requested_level :
  forall backend : Backend,
    returns_requested_level backend ->
    forall X response,
      outcome (backend X) = Fulfilled response ->
      forall w, exists k,
        fetchLevelDetails X (backend X) w
        = Suspended (sent [level_url X] w) k
        /\ forall w', exists w'' details modal,
            k w' = Finished (inr tt) w''
            /\ levelDetails (state w'') = Some details
            /\ details = data response
            /\ RoadmapLevel.id (Bundle.level details) = X
            /\ LevelDetails (state w'') = Some modal
            /\ modal_heading modal
               = RoadmapLevel.title (Bundle.level details)
                 ++ " - Level "
                 ++ Js.child_text
                      (RoadmapLevel.level_number (Bundle.level details)).
Proof.
  intros backend Hcontract X response Hr w.
  eexists. split; [reflexivity |].
  intros w'. cbn beta. rewrite Hr. cbn.
  do 3 eexists. split; [reflexivity |]. split; [reflexivity |].
  split; [reflexivity |]. split; [exact (Hcontract X response Hr) |].
  split; reflexivity.
Qed.

(* ================================================================== *)
(** ** Reachable states of the component *)
(* ================================================================== *)

Lemma remove_nth_In {A : Type} (l : list A) :
  forall i x, In x (remove_nth i l) -> In x l.
Proof.
  induction l as [| y rest IH]; intros i x H.
  - destruct i; exact H.
  - destruct i as [| i]; cbn in H.
    + now right.
    + destruct H as [-> | H]; [now left | right; eauto].
Qed.

Lemma pending_ok_remove flag calls i :
  pending_ok flag calls -> pending_ok flag (remove_nth i calls).
Proof.
  unfold pending_ok. rewrite !Forall_forall.
  intros H k Hk. apply H. eapply remove_nth_In; eassumption.
Qed.

Lemma pending_ok_weaken flag flag' calls :
  (flag = false -> flag' = false) ->
  pending_ok flag calls -> pending_ok flag' calls.
Proof.
  intros Hmono. unfold pending_ok. apply Forall_impl.
  intros k [H | [Hf H]]; [left | right]; auto.
Qed.

Lemma pending_ok_nth flag calls i k :
  pending_ok flag calls ->
  nth_error calls i = Some k ->
  (exists p1 p2, awaits (fetchData p1 p2) k)
  \/ (flag = false
      /\ exists levelId reply, awaits (fetchLevelDetails levelId reply) k).
Proof.
  unfold pending_ok. rewrite Forall_forall.
  intros H Hk. apply H. eapply nth_error_In; eassumption.
Qed.

Lemma card_handlers s h :
  In h (map card_onClick (VisualRoadmap s)) ->
  exists level, In level (roadmapData s) /\ h = OnLevel (RoadmapLevel.id level).
Proof.
  unfold VisualRoadmap. generalize 0.
  induction (roadmapData s) as [| level rest IH]; intros n; cbn.
  - contradiction.
  - intros [<- | H].
    + exists level. split; [now left | reflexivity].
    + destruct (IH _ H) as [l [Hl ->]]. exists l. split; [now right | reflexivity].
Qed.

(** What can be clicked: nothing while loading; afterwards the two tab
    buttons, the cards of the roadmap panel and the close button of an
    open detail view. *)
Lemma clickable_cases s h :
  In h (clickable (App s)) ->
  loading s = false
  /\ (h = OnTab "roadmap"
      \/ h = OnTab "insights"
      \/ (exists level,
             In level (roadmapData s) /\ h = OnLevel (RoadmapLevel.id level))
      \/ h = OnClose).
Proof.
  unfold clickable.
  destruct (App s) as [| nav c o] eqn:Hpage; [contradiction |].
  unfold App in Hpage.
  destruct (loading s); [discriminate |].
  injection Hpage as <- <- <-.
  intros Hin. split; [reflexivity |].
  apply in_app_or in Hin. destruct Hin as [Hin | Hin].
  - cbn in Hin. intuition.
  - apply in_app_or in Hin. destruct Hin as [Hin | Hin].
    + right. right. left. unfold content in Hin.
      destruct (String.eqb (activeTab s) "roadmap");
        destruct (String.eqb (activeTab s) "insights"); cbn in Hin;
        try rewrite app_nil_r in Hin;
        try contradiction; apply card_handlers; exact Hin.
    + right. right. right.
      apply in_map_iff in Hin. destruct Hin as [m [<- Hm]].
      cbn in Hm. apply in_flat_map in Hm.
      destruct Hm as [node [Hnode Hm]].
      unfold overlay in Hnode.
      destruct (Js.truthy (selectedLevel s)).
      * unfold LevelDetails in Hnode.
        destruct (levelDetails s); [| contradiction].
        destruct Hnode as [<- | []]. destruct Hm as [<- | []].
        reflexivity.
      * destruct (selectedLevel s); try contradiction.
        destruct Hnode as [<- | []]. contradiction.
Qed.

Lemma mount_invariant p1 p2 : invariant (mount p1 p2).
Proof.
  unfold mount, call. rewrite fetchData_suspends. cbn.
  split.
  - left. reflexivity.
  - constructor; [| constructor].
    left. exists p1, p2, initial_world. eexists. apply fetchData_suspends.
Qed.

Lemma step_invariant s ev s' :
  invariant s -> step s ev = Some s' -> invariant s'.
Proof.
  intros [Htab Hpend] Hstep. destruct ev as [h reply | i]; cbn in Hstep.
  - destruct (in_dec Handler_eq_dec h (clickable (App (state (world s)))))
      as [Hin | _]; [| discriminate].
    injection Hstep as <-.
    apply clickable_cases in Hin.
    destruct Hin as [Hload [-> | [-> | [[level [_ ->]] | ->]]]];
      unfold call; cbn; split; cbn; try exact Hpend; try exact Htab;
      try (unfold tab_ok; cbn; auto; fail).
    unfold pending_ok in *. apply Forall_app. split; [exact Hpend |].
    constructor; [| constructor]. right. split; [exact Hload |].
    exists (RoadmapLevel.id level), reply, (world s). eexists. reflexivity.
  - destruct (nth_error (pending s) i) as [k |] eqn:Hk; [| discriminate].
    injection Hstep as <-.
    unfold call. cbn [world pending].
    destruct (pending_ok_nth _ _ _ _ Hpend Hk)
      as [[p1 [p2 Hw]] | [Hload [levelId [r Hw]]]].
    + rewrite (fetchData_resumed p1 p2 k (world s) Hw).
      destruct (outcome (Promise_all p1 p2)) as [[a b] | e]; cbn;
        (split; [exact Htab |]);
        apply pending_ok_remove;
        (eapply pending_ok_weaken; [| exact Hpend]); reflexivity.
    + rewrite (fetchLevelDetails_resumed levelId r k (world s) Hw).
      destruct (outcome r) as [a | e]; cbn;
        (split; [exact Htab |]);
        apply pending_ok_remove; exact Hpend.
Qed.

Lemma reachable_invariant s : reachable s -> invariant s.
Proof.
  induction 1 as [p1 p2 | s ev s' _ IH Hstep].
  - apply mount_invariant.
  - eapply step_invariant; eassumption.
Qed.

Lemma run_reachable evs :
  forall s s', reachable s -> run s evs = Some s' -> reachable s'.
Proof.
  induction evs as [| ev rest IH]; intros s s' Hs Hrun; cbn in Hrun.
  - injection Hrun as <-. exact Hs.
  - destruct (step s ev) as [s1 |] eqn:Hstep; [| discriminate].
    apply (IH s1 s'); [| exact Hrun].
    eapply reachable_step; eassumption.
Qed.

Lemma session_reachable p1 p2 evs s :
  session p1 p2 evs = Some s -> reachable s.
Proof.
  intros H. eapply run_reachable; [| exact H]. apply reachable_mount.
Qed.

(** The rest of a failed level-detail call is not the rest of a startup
    fetch: they write different things to the log. *)
Lemma level_failure_is_not_startup levelId reply e p1 p2 k :
  outcome reply = Rejected e ->
  awaits (fetchLevelDetails levelId reply) k ->
  awaits (fetchData p1 p2) k ->
  False.
Proof.
  intros He Hlevel Hdata.
  pose proof (fetchLevelDetails_resumed levelId reply k initial_world Hlevel)
    as E1.
  pose proof (fetchData_resumed p1 p2 k initial_world Hdata) as E2.
  rewrite He in E1. rewrite E1 in E2.
  destruct (outcome (Promise_all p1 p2)) as [[a b] | e'];
    cbn in E2; discriminate.
Qed.

(** C7. [activeTab] starts as 'roadmap'; the only tab handlers on a page
    are the two that store 'roadmap' and 'insights'; so in every
    reachable state [activeTab] is one of these two, and once loading is
    over the page holds exactly one of the two top-level panels: the
    roadmap panel when the tab is 'roadmap', the insights panel when it
    is 'insights'. *)
Theorem one_panel_at_a_time :
  activeTab initial_state = "roadmap"
  /\ (forall s tab,
         In (OnTab tab) (clickable (App s)) ->
         tab = "roadmap" \/ tab = "insights")
  /\ (forall tab reply w, exists w',
         run_handler (OnTab tab) reply w = Finished (inr tt) w'
         /\ activeTab (state w') = tab)
  /\ forall s,
      reachable s ->
      (activeTab (state (world s)) = "roadmap"
       \/ activeTab (state (world s)) = "insights")
      /\ (loading (state (world s)) = false ->
          (activeTab (state (world s)) = "roadmap"
           /\ panels (App (state (world s)))
              = [RoadmapPanel (VisualRoadmap (state (world s)))])
          \/ (activeTab (state (world s)) = "insights"
              /\ panels (App (state (world s)))
                 = [InsightsPanel (IndustryInsights (state (world s)))])).
Proof.
  split; [reflexivity |]. split; [| split].
  - intros s tab Hin. apply clickable_cases in Hin.
    destruct Hin as [_ [H | [H | [[level [_ H]] | H]]]];
      try discriminate; injection H as ->; auto.
  - intros tab reply w. eexists. split; reflexivity.
  - intros s Hreach.
    destruct (reachable_invariant s Hreach) as [Htab _].
    split; [exact Htab |].
    intros Hload. unfold App, panels, content. rewrite Hload.
    destruct Htab as [E | E]; [left | right]; rewrite E; split;
      reflexivity.
Qed.

(** C2, as the code has it.  Each request the component sends is
    awaited inside a [try]: the level-detail request on its own in
    [fetchLevelDetails], the two startup requests jointly in
    [fetchData].  The joint await fails as soon as one startup request
    does, with that request's error; when both fail it fails with the
    error of the one that failed first (of the roadmap request on a
    tie), and the error of the other is handed to nobody.  In every
    reachable state, when the await of a suspended call fails and the
    call is resumed, its [catch] block appends the one error it is
    handed to the log, once, under the call's message, and the loading
    flag is false afterwards. *)
Theorem failed_request_logged_and_loading_false :
  (forall (p1 : Promise (Response (list RoadmapLevel.t)))
          (p2 : Promise (Response (list Insight.t))),
      ((exists e, outcome p1 = Rejected e)
       \/ (exists e, outcome p2 = Rejected e) ->
       exists e,
         outcome (Promise_all p1 p2) = Rejected e
         /\ (outcome p1 = Rejected e \/ outcome p2 = Rejected e))
      /\ (forall e1 e2,
             outcome p1 = Rejected e1 ->
             outcome p2 = Rejected e2 ->
             outcome (Promise_all p1 p2)
             = Rejected (if Nat.ltb (settles_at p2) (settles_at p1)
                         then e2 else e1)))
  /\ forall s,
      reachable s ->
      forall i k message e,
        nth_error (pending s) i = Some k ->
        failing k message e ->
        exists s',
          step s (Resume i) = Some s'
          /\ console (world s')
             = (console (world s) ++ [(message, e)])%list
          /\ loading (state (world s')) = false.
Proof.
  split.
  { intros p1 p2. split; [apply Promise_all_rejected |].
    intros e1 e2 H1 H2. unfold Promise_all. rewrite H1, H2.
    destruct (Nat.ltb (settles_at p2) (settles_at p1)); reflexivity. }
  intros s Hreach i k message e Hk Hfail.
  destruct (reachable_invariant s Hreach) as [_ Hpend].
  unfold step. rewrite Hk. eexists. split; [reflexivity |].
  unfold call. cbn [world pending].
  destruct Hfail as [p1 p2 k e Hw He | levelId reply k e Hw He].
  - rewrite (fetchData_resumed p1 p2 k (world s) Hw), He. cbn.
    split; reflexivity.
  - rewrite (fetchLevelDetails_resumed levelId reply k (world s) Hw), He.
    cbn. split; [reflexivity |].
    destruct (pending_ok_nth _ _ _ _ Hpend Hk)
      as [[p1 [p2 Hdata]] | [Hload _]]; [| exact Hload].
    exfalso. exact (level_failure_is_not_startup _ _ _ _ _ _ He Hw Hdata).
Qed.

(* ================================================================== *)
(** ** The two phases of a session *)
(* ================================================================== *)

Lemma Forall_remove_nth {A : Type} (P : A -> Prop) l i :
  Forall P l -> Forall P (remove_nth i l).
Proof.
  rewrite !Forall_forall. intros H x Hx. apply H.
  eapply remove_nth_In; eassumption.
Qed.

Lemma remove_nth_length {A : Type} (l : list A) :
  forall i x,
    nth_error l i = Some x -> S (length (remove_nth i l)) = length l.
Proof.
  induction l as [| y rest IH]; intros i x H.
  - destruct i; discriminate.
  - destruct i as [| i]; cbn in *; [reflexivity |].
    now rewrite (IH i x H).
Qed.

Lemma mount_well_formed p1 p2 : well_formed (mount p1 p2).
Proof.
  unfold mount, call. rewrite fetchData_suspends.
  split.
  - unfold phase_ok. cbn. repeat split.
    eexists. split; [reflexivity |].
    exists p1, p2, initial_world. eexists. apply fetchData_suspends.
  - exists []. split; [reflexivity | constructor].
Qed.

Lemma step_well_formed s ev s' :
  well_formed s -> step s ev = Some s' -> well_formed s'.
Proof.
  intros [Hphase Hreq] Hstep.
  unfold phase_ok in Hphase.
  destruct ev as [h reply | i]; cbn in Hstep.
  - destruct (in_dec Handler_eq_dec h (clickable (App (state (world s)))))
      as [Hin | _]; [| discriminate].
    injection Hstep as <-.
    apply clickable_cases in Hin.
    destruct Hin as [Hload Hcases]. rewrite Hload in Hphase.
    destruct Hcases as [-> | [-> | [[level [Hlevel ->]] | ->]]];
      unfold call, well_formed, phase_ok; cbn; rewrite Hload.
    + repeat split; assumption.
    + repeat split; assumption.
    + split.
      * apply Forall_app. split; [exact Hphase |].
        constructor; [| constructor].
        exists (RoadmapLevel.id level), reply, (world s). eexists.
        reflexivity.
      * destruct Hreq as [ids [Hids Hall]].
        exists (ids ++ [RoadmapLevel.id level])%list. cbn. split.
        -- rewrite Hids, map_app. reflexivity.
        -- apply Forall_app. split; [exact Hall |].
           constructor; [| constructor].
           apply in_map. exact Hlevel.
    + split; [exact Hphase | exact Hreq].
  - destruct (nth_error (pending s) i) as [k |] eqn:Hk; [| discriminate].
    injection Hstep as <-.
    unfold call. cbn [world pending].
    destruct (loading (state (world s))) eqn:Hload.
    + destruct Hphase as [Hinit [Hcon [Hrq [k0 [Hp [p1 [p2 Hw]]]]]]].
      rewrite Hp in Hk. destruct i as [| i]; [| destruct i; discriminate].
      injection Hk as <-.
      rewrite (fetchData_resumed p1 p2 k0 (world s) Hw).
      rewrite Hp.
      destruct (outcome (Promise_all p1 p2)) as [[a b] | e];
        unfold well_formed, phase_ok; cbn;
        (split; [constructor |]);
        exists []; cbn; rewrite Hrq; (split; [reflexivity | constructor]).
    + assert (Hcall : level_call k).
      { rewrite Forall_forall in Hphase. apply Hphase.
        eapply nth_error_In; eassumption. }
      destruct Hcall as [levelId [r Hw]].
      rewrite (fetchLevelDetails_resumed levelId r k (world s) Hw).
      destruct (outcome r) as [a | e];
        unfold well_formed, phase_ok; cbn; rewrite Hload;
        (split; [apply Forall_remove_nth; exact Hphase | exact Hreq]).
Qed.

Lemma reachable_well_formed s : reachable s -> well_formed s.
Proof.
  induction 1 as [p1 p2 | s ev s' _ IH Hstep].
  - apply mount_well_formed.
  - eapply step_well_formed; eassumption.
Qed.

(** A suspended call is of one kind only: resumed from the initial
    world, the startup fetch lowers the loading flag and a level-detail
    call leaves it up. *)
Lemma calls_disjoint k : startup_call k -> level_call k -> False.
Proof.
  intros [p1 [p2 Hd]] [levelId [reply Hl]].
  pose proof (fetchData_resumed p1 p2 k initial_world Hd) as E1.
  pose proof (fetchLevelDetails_resumed levelId reply k initial_world Hl)
    as E2.
  rewrite E1 in E2.
  destruct (outcome (Promise_all p1 p2)) as [[a b] | e];
    destruct (outcome reply) as [r | e']; cbn in E2; discriminate.
Qed.

Lemma pending_level_call_loaded s i k :
  reachable s ->
  nth_error (pending s) i = Some k ->
  level_call k ->
  loading (state (world s)) = false.
Proof.
  intros Hreach Hk Hcall.
  destruct (reachable_well_formed s Hreach) as [Hphase _].
  unfold phase_ok in Hphase.
  destruct (loading (state (world s))); [| reflexivity].
  destruct Hphase as [_ [_ [_ [k0 [Hp Hstart]]]]].
  rewrite Hp in Hk. destruct i as [| i]; [| destruct i; discriminate].
  injection Hk as <-. destruct (calls_disjoint k0 Hstart Hcall).
Qed.

(** X1. While the loading flag is up, the component is exactly as it
    was mounted: the state is the initial state, the log is empty, the
    two startup requests are the only ones sent, the startup fetch is
    the only suspended call, and no click is possible; the one thing
    that can happen is that the startup fetch is resumed, and that ends
    loading. *)
Theorem nothing_happens_while_loading :
  forall s,
    reachable s ->
    loading (state (world s)) = true ->
    state (world s) = initial_state
    /\ console (world s) = []
    /\ requests (world s) = [roadmap_url; insights_url]
    /\ (exists k, pending s = [k] /\ startup_call k)
    /\ (forall h reply, step s (Click h reply) = None)
    /\ (forall ev s',
           step s ev = Some s' ->
           ev = Resume 0
           /\ loading (state (world s')) = false
           /\ pending s' = []).
Proof.
  intros s Hreach Hload.
  destruct (reachable_well_formed s Hreach) as [Hphase _].
  unfold phase_ok in Hphase. rewrite Hload in Hphase.
  destruct Hphase as [Hinit [Hcon [Hrq [k [Hp Hstart]]]]].
  assert (Hclick : forall h reply, step s (Click h reply) = None).
  { intros h reply. cbn. unfold App. rewrite Hload. cbn. reflexivity. }
  repeat split; try assumption.
  - exists k. split; assumption.
  - destruct ev as [h reply | i]; [rewrite Hclick in H; discriminate |].
    cbn in H. rewrite Hp in H.
    destruct i as [| i]; [reflexivity | destruct i; discriminate].
  - destruct ev as [h reply | i]; [rewrite Hclick in H; discriminate |].
    cbn in H. rewrite Hp in H.
    destruct i as [| i]; [| destruct i; discriminate].
    injection H as <-. unfold call. cbn [world pending].
    destruct Hstart as [p1 [p2 Hw]].
    rewrite (fetchData_resumed p1 p2 k (world s) Hw).
    destruct (outcome (Promise_all p1 p2)) as [[a b] | e]; reflexivity.
  - destruct ev as [h reply | i]; [rewrite Hclick in H; discriminate |].
    cbn in H. rewrite Hp in H.
    destruct i as [| i]; [| destruct i; discriminate].
    injection H as <-. unfold call. cbn [world pending].
    destruct Hstart as [p1 [p2 Hw]].
    rewrite (fetchData_resumed p1 p2 k (world s) Hw).
    destruct (outcome (Promise_all p1 p2)) as [[a b] | e]; reflexivity.
Qed.

(** X2. Once loading is over it is over for good, and the two
    collections are never written again: whatever happens next, a
    click or the arrival of a reply, the loading flag stays false and
    [roadmapData] and [industryInsights] keep their values.  A failed
    startup fetch is therefore never repaired. *)
Theorem loaded_page_stays_loaded :
  forall s ev s',
    reachable s ->
    loading (state (world s)) = false ->
    step s ev = Some s' ->
    loading (state (world s')) = false
    /\ roadmapData (state (world s')) = roadmapData (state (world s))
    /\ industryInsights (state (world s'))
       = industryInsights (state (world s)).
Proof.
  intros s ev s' Hreach Hload Hstep.
  destruct (reachable_well_formed s Hreach) as [Hphase _].
  unfold phase_ok in Hphase. rewrite Hload in Hphase.
  destruct ev as [h reply | i]; cbn in Hstep.
  - destruct (in_dec Handler_eq_dec h (clickable (App (state (world s)))))
      as [_ | _]; [| discriminate].
    injection Hstep as <-.
    destruct h; unfold call; cbn; repeat split; assumption.
  - destruct (nth_error (pending s) i) as [k |] eqn:Hk; [| discriminate].
    injection Hstep as <-. unfold call. cbn [world pending].
    assert (Hcall : level_call k).
    { rewrite Forall_forall in Hphase. apply Hphase.
      eapply nth_error_In; eassumption. }
    destruct Hcall as [levelId [r Hw]].
    rewrite (fetchLevelDetails_resumed levelId r k (world s) Hw).
    destruct (outcome r) as [a | e]; cbn; repeat split; assumption.
Qed.

(** X3. The requests the component has sent are, in order, the roadmap
    request and the insights request, each exactly once, followed by
    level-detail requests only, each for the id of a level that is in
    [roadmapData]. *)
Theorem requests_are_startup_then_loaded_levels :
  forall s,
    reachable s ->
    exists ids,
      requests (world s)
      = roadmap_url :: insights_url :: map level_url ids
      /\ forall X,
          In X ids ->
          exists level,
            In level (roadmapData (state (world s)))
            /\ RoadmapLevel.id level = X.
Proof.
  intros s Hreach.
  destruct (reachable_well_formed s Hreach) as [_ [ids [Hids Hall]]].
  exists ids. split; [exact Hids |].
  intros X HX. rewrite Forall_forall in Hall.
  specialize (Hall X HX). apply in_map_iff in Hall.
  destruct Hall as [level [Hid Hin]]. exists level. split; assumption.
Qed.

(** X4. Resuming a suspended call ends it: the call is taken off the
    pending list and never suspends again, it sends no request (a
    failed request is not retried), and it writes at most one line to
    the log, under one of the two messages of the [catch] blocks. *)
Theorem resumed_call_ends :
  forall s i s',
    reachable s ->
    step s (Resume i) = Some s' ->
    pending s' = remove_nth i (pending s)
    /\ S (length (pending s')) = length (pending s)
    /\ requests (world s') = requests (world s)
    /\ (console (world s') = console (world s)
        \/ exists message e,
            console (world s') = (console (world s) ++ [(message, e)])%list
            /\ (message = "Error fetching data:"
                \/ message = "Error fetching level details:")).
Proof.
  intros s i s' Hreach Hstep. cbn in Hstep.
  destruct (nth_error (pending s) i) as [k |] eqn:Hk; [| discriminate].
  injection Hstep as <-. unfold call. cbn [world pending].
  pose proof (remove_nth_length _ _ _ Hk) as Hlen.
  destruct (reachable_invariant s Hreach) as [_ Hpend].
  destruct (pending_ok_nth _ _ _ _ Hpend Hk)
    as [[p1 [p2 Hw]] | [_ [levelId [r Hw]]]].
  - rewrite (fetchData_resumed p1 p2 k (world s) Hw).
    destruct (outcome (Promise_all p1 p2)) as [[a b] | e]; cbn;
      repeat split; try assumption; [left; reflexivity |].
    right. exists "Error fetching data:", e. split; [reflexivity |].
    left. reflexivity.
  - rewrite (fetchLevelDetails_resumed levelId r k (world s) Hw).
    destruct (outcome r) as [a | e]; cbn;
      repeat split; try assumption; [left; reflexivity |].
    right. exists "Error fetching level details:", e.
    split; [reflexivity |]. right. reflexivity.
Qed.

(** X5. A click never writes the log, the loading flag or the two
    collections.  Only a click on a level card sends a request, exactly
    one, to the URL of that level, and leaves one more call suspended;
    a click on a tab or on the close button sends nothing and suspends
    nothing. *)
Theorem click_effects :
  forall s h reply s',
    step s (Click h reply) = Some s' ->
    console (world s') = console (world s)
    /\ loading (state (world s')) = loading (state (world s))
    /\ roadmapData (state (world s')) = roadmapData (state (world s))
    /\ industryInsights (state (world s'))
       = industryInsights (state (world s))
    /\ match h with
       | OnLevel levelId =>
           requests (world s')
           = (requests (world s) ++ [level_url levelId])%list
           /\ length (pending s') = S (length (pending s))
           /\ state (world s') = state (world s)
       | OnTab _ | OnClose =>
           requests (world s') = requests (world s)
           /\ pending s' = pending s
       end.
Proof.
  intros s h reply s' Hstep. cbn in Hstep.
  destruct (in_dec Handler_eq_dec h (clickable (App (state (world s)))))
    as [_ | _]; [| discriminate].
  injection Hstep as <-.
  destruct h; unfold call; cbn; repeat split.
  rewrite length_app. cbn. apply Nat.add_1_r.
Qed.

(* ================================================================== *)
(** ** The detail view in reachable states *)
(* ================================================================== *)

(** X7. The last reply wins.  When the reply of a suspended
    level-detail call for id X arrives with success, whatever was
    selected before, and whether or not the view was closed or another
    level clicked in the meantime, [selectedLevel] becomes X and
    [levelDetails] the bundle of that reply; for a truthy X the page
    then shows exactly the view of that bundle.  Nothing cancels a
    request once its card has been clicked. *)
Theorem last_reply_wins :
  forall s i k levelId reply response,
    reachable s ->
    nth_error (pending s) i = Some k ->
    awaits (fetchLevelDetails levelId reply) k ->
    outcome reply = Fulfilled response ->
    exists s',
      step s (Resume i) = Some s'
      /\ selectedLevel (state (world s')) = levelId
      /\ levelDetails (state (world s')) = Some (data response)
      /\ activeTab (state (world s')) = activeTab (state (world s))
      /\ (Js.truthy levelId = true ->
          map modal_heading (modals (App (state (world s'))))
          = [RoadmapLevel.title (Bundle.level (data response))
             ++ " - Level "
             ++ Js.child_text
                  (RoadmapLevel.level_number
                     (Bundle.level (data response)))]).
Proof.
  intros s i k levelId reply response Hreach Hk Hw Hr.
  assert (Hload : loading (state (world s)) = false).
  { apply (pending_level_call_loaded s i k Hreach Hk).
    exists levelId, reply. exact Hw. }
  unfold step. rewrite Hk. eexists. split; [reflexivity |].
  unfold call. cbn [world pending].
  rewrite (fetchLevelDetails_resumed levelId reply k (world s) Hw), Hr.
  cbn. repeat split.
  intros Ht. rewrite modals_App. cbn. rewrite Hload, Ht. reflexivity.
Qed.

(** X8. Opening and closing is a round trip: from a state with nothing
    selected, a successful level-detail call followed by a click on the
    close button gives back the state the call was resumed in.  The
    close handler itself always leaves nothing selected, so running it
    twice is the same as running it once. *)
Theorem open_then_close_restores_state :
  (forall levelId reply response k w,
      awaits (fetchLevelDetails levelId reply) k ->
      outcome reply = Fulfilled response ->
      selectedLevel (state w) = Js.Null ->
      levelDetails (state w) = None ->
      exists w1 w2,
        k w = Finished (inr tt) w1
        /\ run_handler OnClose reply w1 = Finished (inr tt) w2
        /\ w2 = w)
  /\ (forall reply w, exists w1,
         run_handler OnClose reply w = Finished (inr tt) w1
         /\ run_handler OnClose reply w1 = Finished (inr tt) w1).
Proof.
  split.
  - intros levelId reply response k w Hw Hr Hs Hd.
    rewrite (fetchLevelDetails_resumed levelId reply k w Hw), Hr.
    do 2 eexists. split; [reflexivity |]. split; [reflexivity |].
    destruct w as [st c r]. destruct st. cbn in *. subst. reflexivity.
  - intros reply w. eexists. split; reflexivity.
Qed.

(** X9. A click on a tab writes [activeTab] and nothing else: the
    selection, the bundle, the collections, the log and the requests
    are as before, so an open detail view stays open across a tab
    switch; and a click on the tab that is already active changes
    nothing at all. *)
Theorem tab_click_only_switches_tab :
  forall tab reply w, exists w',
    run_handler (OnTab tab) reply w = Finished (inr tt) w'
    /\ activeTab (state w') = tab
    /\ selectedLevel (state w') = selectedLevel (state w)
    /\ levelDetails (state w') = levelDetails (state w)
    /\ roadmapData (state w') = roadmapData (state w)
    /\ industryInsights (state w') = industryInsights (state w)
    /\ loading (state w') = loading (state w)
    /\ console w' = console w
    /\ requests w' = requests w
    /\ modals (App (state w')) = modals (App (state w))
    /\ (activeTab (state w) = tab -> w' = w).
Proof.
  intros tab reply w. eexists. split; [reflexivity |]. cbn.
  repeat split.
  - rewrite !modals_App. reflexivity.
  - intros <-. destruct w as [st c r]. destruct st. reflexivity.
Qed.

(** X10. On a loaded page of a reachable state exactly one of the two
    tab buttons carries the active class, and it is the button of the
    panel that is shown. *)
Theorem active_tab_button_matches_panel :
  forall s,
    reachable s ->
    loading (state (world s)) = false ->
    (map nav_class (navigation (state (world s)))
     = ["bg-blue-500 text-white";
        "text-gray-300 hover:text-white hover:bg-white/10"]
     /\ panels (App (state (world s)))
        = [RoadmapPanel (VisualRoadmap (state (world s)))])
    \/ (map nav_class (navigation (state (world s)))
        = ["text-gray-300 hover:text-white hover:bg-white/10";
           "bg-blue-500 text-white"]
        /\ panels (App (state (world s)))
           = [InsightsPanel (IndustryInsights (state (world s)))]).
Proof.
  intros s Hreach Hload.
  destruct (reachable_invariant s Hreach) as [Htab _].
  unfold App, panels, content, navigation, tab_class. rewrite Hload.
  destruct Htab as [E | E]; [left | right]; rewrite E; split;
    reflexivity.
Qed.

(* ================================================================== *)
(** ** What is on the page *)
(* ================================================================== *)

Lemma card_handlers_in s level :
  In level (roadmapData s) ->
  In (OnLevel (RoadmapLevel.id level)) (map card_onClick (VisualRoadmap s)).
Proof.
  unfold VisualRoadmap. generalize 0.
  induction (roadmapData s) as [| l rest IH]; intros n; cbn.
  - contradiction.
  - intros [-> | H]; [now left | right; apply IH; exact H].
Qed.

Lemma clickable_loaded s :
  loading s = false ->
  clickable (App s)
  = (map nav_onClick (navigation s)
     ++ flat_map panel_handlers (content s)
     ++ map modal_onClose (modals (App s)))%list.
Proof. intros H. unfold clickable, App. rewrite H. reflexivity. Qed.

Lemma tab_handlers s h :
  In h (map nav_onClick (navigation s))
  <-> h = OnTab "roadmap" \/ h = OnTab "insights".
Proof.
  cbn. split.
  - intros [<- | [<- | []]]; auto.
  - intros [-> | ->]; auto.
Qed.

Lemma panel_handlers_content s h :
  In h (flat_map panel_handlers (content s))
  <-> activeTab s = "roadmap"
      /\ exists level,
          In level (roadmapData s) /\ h = OnLevel (RoadmapLevel.id level).
Proof.
  unfold content.
  destruct (String.eqb_spec (activeTab s) "roadmap") as [E | E].
  - rewrite E. cbn. rewrite app_nil_r. split.
    + intros H. split; [reflexivity | apply card_handlers; exact H].
    + intros [_ [level [Hl ->]]]. apply card_handlers_in. exact Hl.
  - destruct (String.eqb (activeTab s) "insights"); cbn;
      split; try contradiction; intros [Hr _]; contradiction.
Qed.

Lemma close_handler_on_page s h :
  In h (map modal_onClose (modals (App s)))
  <-> loading s = false
      /\ h = OnClose
      /\ Js.truthy (selectedLevel s) = true
      /\ levelDetails s <> None.
Proof.
  rewrite modals_App. unfold LevelDetails.
  destruct (loading s); cbn; [intuition discriminate |].
  destruct (Js.truthy (selectedLevel s)); cbn; [| intuition discriminate].
  destruct (levelDetails s); cbn; intuition congruence.
Qed.

(** X11. What can be clicked, exactly.  Nothing while loading.  On a
    loaded page: the two tab buttons, always; the card of each level of
    [roadmapData], on the roadmap tab only; and the close button, only
    while a detail view is open (truthy [selectedLevel], non-null
    [levelDetails]). *)
Theorem clickable_exactly :
  forall s h,
    In h (clickable (App s))
    <-> loading s = false
        /\ (h = OnTab "roadmap"
            \/ h = OnTab "insights"
            \/ (activeTab s = "roadmap"
                /\ exists level,
                    In level (roadmapData s)
                    /\ h = OnLevel (RoadmapLevel.id level))
            \/ (h = OnClose
                /\ Js.truthy (selectedLevel s) = true
                /\ levelDetails s <> None)).
Proof.
  intros s h. destruct (loading s) eqn:Hload.
  - unfold clickable, App. rewrite Hload. cbn. intuition discriminate.
  - rewrite (clickable_loaded s Hload), !in_app_iff.
    rewrite tab_handlers, panel_handlers_content, close_handler_on_page.
    rewrite Hload. tauto.
Qed.

(** X12. The card of the level at position n of [roadmapData] is the
    n-th card of the roadmap panel and is keyed by the level's id.
    Cards alternate sides: at even positions, starting with the first
    card, both layout classes are the left ones, at odd positions both
    are the right ones.  The circle of a card is highlighted exactly
    when the level's id is strictly equal to [selectedLevel]. *)
Theorem card_layout_and_highlight :
  forall s n level,
    nth_error (roadmapData s) n = Some level ->
    exists card,
      nth_error (VisualRoadmap s) n = Some card
      /\ card_key card = RoadmapLevel.id level
      /\ ((exists m, n = 2 * m) ->
          card_row_class card = "justify-start"
          /\ card_side_class card = "mr-auto")
      /\ ((exists m, n = 2 * m + 1) ->
          card_row_class card = "justify-end"
          /\ card_side_class card = "ml-auto")
      /\ (card_circle_class card = "border-yellow-400"
          <-> selectedLevel s = RoadmapLevel.id level).
Proof.
  intros s n level Hn.
  eexists. split.
  { unfold VisualRoadmap. apply (map_from_nth _ _ 0 n level Hn). }
  cbn [level_card card_key card_row_class card_side_class
       card_circle_class Nat.add].
  split; [reflexivity |]. split; [| split].
  - intros [m ->]. rewrite Nat.mul_comm, Nat.Div0.mod_mul.
    split; reflexivity.
  - intros [m ->].
    rewrite Nat.add_comm, Nat.mul_comm, Nat.Div0.mod_add.
    split; reflexivity.
  - unfold Js.strict_eq.
    destruct (Js.value_eq_dec (selectedLevel s) (RoadmapLevel.id level));
      split; intros H; try reflexivity; try assumption;
      try discriminate; contradiction.
Qed.

Lemma replace_underscore_first a b :
  (forall c, In c (list_ascii_of_string a) -> c <> "_"%char) ->
  Js.replace_underscore (a ++ String "_" b) = a ++ String " " b.
Proof.
  induction a as [| c a IH]; intros Hno; cbn.
  - reflexivity.
  - destruct (Ascii.eqb_spec c "_") as [E | _].
    + exfalso. apply (Hno c); [left; reflexivity | exact E].
    + rewrite IH; [reflexivity |].
      intros c' Hc'. apply Hno. right. exact Hc'.
Qed.

Lemma replace_underscore_none a :
  (forall c, In c (list_ascii_of_string a) -> c <> "_"%char) ->
  Js.replace_underscore a = a.
Proof.
  induction a as [| c a IH]; intros Hno; cbn.
  - reflexivity.
  - destruct (Ascii.eqb_spec c "_") as [E | _].
    + exfalso. apply (Hno c); [left; reflexivity | exact E].
    + rewrite IH; [reflexivity |].
      intros c' Hc'. apply Hno. right. exact Hc'.
Qed.

(** X13. The heading of an insight card is the specialization tag with
    its first underscore, and only the first, turned into a space:
    what follows the first underscore is printed as it is, further
    underscores included, and a tag without an underscore is printed
    unchanged. *)
Theorem insight_heading_replaces_first_underscore_only :
  forall insight a b,
    (forall c, In c (list_ascii_of_string a) -> c <> "_"%char) ->
    (Insight.specialization insight = a ++ String "_" b ->
     insight_heading (insight_card insight) = a ++ String " " b)
    /\ (Insight.specialization insight = a ->
        insight_heading (insight_card insight) = a).
Proof.
  intros insight a b Hno. unfold insight_card. cbn. split; intros ->.
  - apply replace_underscore_first. exact Hno.
  - apply replace_underscore_none. exact Hno.
Qed.

(** X14. Below the content the page holds at most one node: the detail
    view, or a stray text.  The only text that can appear there is the
    digit 0, and it appears exactly when [selectedLevel] is the number
    0; every other falsy selection leaves the place empty. *)
Theorem overlay_stray_text_is_zero :
  forall s,
    length (overlay s) <= 1
    /\ (forall text,
           In (TextNode text) (overlay s)
           <-> selectedLevel s = Js.Num 0 /\ text = "0").
Proof.
  intros s. unfold overlay, LevelDetails.
  destruct (selectedLevel s) as [| | b | n | str]; cbn.
  - split; [lia | intros text; intuition discriminate].
  - split; [lia | intros text; intuition discriminate].
  - destruct b; destruct (levelDetails s); cbn;
      (split; [lia | intros text; intuition discriminate]).
  - destruct (Z.eqb_spec n 0) as [-> | Hn]; cbn.
    + split; [lia |]. intros text. split.
      * intros [H | []]. injection H as <-. split; reflexivity.
      * intros [_ ->]. left. reflexivity.
    + destruct (levelDetails s); cbn;
        (split; [lia |]); intros text;
        (split;
         [intros H; repeat (destruct H as [H | H]; try discriminate);
          contradiction
         | intros [H _]; injection H as H; contradiction]).
  - destruct (String.eqb str ""); destruct (levelDetails s); cbn;
      (split; [lia | intros text; intuition discriminate]).
Qed.

(** The case of its switch that a difficulty falls in. *)
Lemma difficulty_cases d :
  (d = Js.Str "beginner"
   /\ getLevelColor d = "from-green-400 to-green-600"
   /\ getDifficultyIcon d = "🌱")
  \/ (d = Js.Str "intermediate"
      /\ getLevelColor d = "from-blue-400 to-blue-600"
      /\ getDifficultyIcon d = "🚀")
  \/ (d = Js.Str "advanced"
      /\ getLevelColor d = "from-purple-400 to-purple-600"
      /\ getDifficultyIcon d = "⚡")
  \/ (d = Js.Str "expert"
      /\ getLevelColor d = "from-red-400 to-red-600"
      /\ getDifficultyIcon d = "👑")
  \/ (~ known_difficulty d
      /\ getLevelColor d = "from-gray-400 to-gray-600"
      /\ getDifficultyIcon d = "📚").
Proof.
  destruct (Js.value_eq_dec d (Js.Str "beginner")) as [-> | Hb];
    [left; repeat split |].
  destruct (Js.value_eq_dec d (Js.Str "intermediate")) as [-> | Hi];
    [right; left; repeat split |].
  destruct (Js.value_eq_dec d (Js.Str "advanced")) as [-> | Ha];
    [right; right; left; repeat split |].
  destruct (Js.value_eq_dec d (Js.Str "expert")) as [-> | He];
    [right; right; right; left; repeat split |].
  right. right. right. right. split.
  - intros [K | [K | [K | K]]]; contradiction.
  - unfold getLevelColor, getDifficultyIcon.
    rewrite (strict_eq_false _ _ Hb), (strict_eq_false _ _ Hi),
      (strict_eq_false _ _ Ha), (strict_eq_false _ _ He).
    split; reflexivity.
Qed.

(** X15. The two lookup tables always agree, and each of them tells the
    four known difficulties and the default apart: two difficulties get
    the same gradient exactly when they get the same icon, and that is
    exactly when they are the same known difficulty or are both
    unknown. *)
Theorem color_and_icon_agree :
  forall d1 d2,
    (getLevelColor d1 = getLevelColor d2
     <-> getDifficultyIcon d1 = getDifficultyIcon d2)
    /\ (getLevelColor d1 = getLevelColor d2
        <-> (d1 = d2 /\ known_difficulty d1)
            \/ (~ known_difficulty d1 /\ ~ known_difficulty d2)).
Proof.
  intros d1 d2.
  assert (Hk : forall d c,
             d = Js.Str c ->
             (c = "beginner" \/ c = "intermediate"
              \/ c = "advanced" \/ c = "expert") ->
             known_difficulty d).
  { intros d c -> [-> | [-> | [-> | ->]]]; unfold known_difficulty; auto. }
  destruct (difficulty_cases d1)
    as [[E1 [C1 I1]] | [[E1 [C1 I1]] | [[E1 [C1 I1]] | [[E1 [C1 I1]]
       | [E1 [C1 I1]]]]]];
    destruct (difficulty_cases d2)
      as [[E2 [C2 I2]] | [[E2 [C2 I2]] | [[E2 [C2 I2]] | [[E2 [C2 I2]]
         | [E2 [C2 I2]]]]]];
    rewrite C1, C2, I1, I2;
    (split; [split; intros H; try reflexivity; discriminate |]);
    (split;
     [ intros H; try discriminate H;
       first [ left; split; [congruence | eapply Hk; [eassumption | auto 6]]
             | right; split; assumption ]
     | intros [[E K] | [K1 K2]];
       try reflexivity;
       first [ exfalso; congruence
             | exfalso; apply K1; eapply Hk; [eassumption | auto 6]
             | exfalso; apply K2; eapply Hk; [eassumption | auto 6]
             | exfalso; subst; contradiction ] ]).
Qed.

(** X16. When [levelDetails] holds a bundle, the detail view lists
    every skill, course, project and role of the bundle once, in the
    bundle's order and keyed by the item's id, and every milestone of
    its level; a project box carries one tag for its duration and one
    per technology.  When [levelDetails] is null there is no view. *)
Theorem detail_view_lists_the_bundle :
  forall s,
    match levelDetails s with
    | None => LevelDetails s = None
    | Some details =>
        exists modal,
          LevelDetails s = Some modal
          /\ map item_key (modal_skills modal)
             = map Skill.id (Bundle.skills details)
          /\ map item_key (modal_courses modal)
             = map Course.id (Bundle.courses details)
          /\ map item_key (modal_projects modal)
             = map Project.id (Bundle.projects details)
          /\ map item_key (modal_roles modal)
             = map Role.id (Bundle.roles details)
          /\ modal_milestones modal
             = RoadmapLevel.milestone_achievements (Bundle.level details)
          /\ map (fun item => length (item_tags item))
               (modal_projects modal)
             = map (fun project =>
                      S (length (Project.technologies_used project)))
                 (Bundle.projects details)
    end.
Proof.
  intros s. unfold LevelDetails.
  destruct (levelDetails s) as [details |]; [| reflexivity].
  eexists. split; [reflexivity |]. cbn.
  rewrite !map_map. repeat split.
Qed.

Lemma append_cancel_l p a b : p ++ a = p ++ b -> a = b.
Proof.
  induction p as [| c p IH]; cbn; intros H; [exact H |].
  injection H as H. apply IH. exact H.
Qed.

(** X17. The URL of a level-detail request depends on the id through
    its string form only: two ids are requested at the same URL exactly
    when the template literal prints them alike, whatever it prints.
    Distinct string ids therefore never share a URL. *)
Theorem level_url_by_string_form :
  (forall X Y,
      level_url X = level_url Y <-> Js.to_string X = Js.to_string Y)
  /\ (forall a b,
         level_url (Js.Str a) = level_url (Js.Str b) <-> a = b).
Proof.
  assert (H : forall X Y,
             level_url X = level_url Y
             <-> Js.to_string X = Js.to_string Y).
  { intros X Y. unfold level_url. split.
    - intros E. apply append_cancel_l in E.
      apply append_cancel_l in E. exact E.
    - intros ->. reflexivity. }
  split; [exact H |].
  intros a b. rewrite H. cbn. reflexivity.
Qed.

End Component.

(* ================================================================== *)
(** ** The theorems at work on the sample documents *)
(* ================================================================== *)

Lemma catalogue_backend_returns_requested_level catalogue :
  returns_requested_level (catalogue_backend catalogue).
Proof.
  intros X response. unfold catalogue_backend.
  destruct (find _ catalogue) as [b |] eqn:Hfind; cbn; [| discriminate].
  intros H. injection H as <-. cbn.
  apply find_some in Hfind. destruct Hfind as [_ Heq].
  apply strict_eq_true. exact Heq.
Qed.

Lemma fetchData_success_renders_all_items_witness :
  outcome (resolves Sample.levels 1) = Fulfilled {| data := Sample.levels |}
  /\ outcome (resolves Sample.insights 2)
     = Fulfilled {| data := Sample.insights |}
  /\ exists k w'',
      fetchData Sample.backend_url (resolves Sample.levels 1)
        (resolves Sample.insights 2) initial_world
      = Suspended
          (sent [insights_url Sample.backend_url]
             (sent [roadmap_url Sample.backend_url] initial_world)) k
      /\ k initial_world = Finished (inr tt) w''
      /\ loading (state w'') = false
      /\ length (VisualRoadmap (state w'')) = 2
      /\ length (IndustryInsights (state w'')) = 1.
Proof.
  split; [reflexivity |]. split; [reflexivity |].
  destruct (fetchData_success_renders_all_items Sample.backend_url
              (resolves Sample.levels 1) (resolves Sample.insights 2)
              _ _ eq_refl eq_refl initial_world) as [k [Hk Hrest]].
  destruct (Hrest initial_world)
    as [w'' [Hw [Hl [_ [_ [Hn [_ [Hm _]]]]]]]].
  exists k, w''. repeat split; assumption.
Defined.

Lemma fetchData_failure_stores_nothing_witness :
  outcome (rejects (A := list RoadmapLevel.t) "Network Error" 1)
  = Rejected "Network Error"
  /\ exists s',
      step Sample.backend_url
        (mount Sample.backend_url (rejects "Network Error" 1)
           (resolves Sample.insights 2))
        (Resume 0) = Some s'
      /\ roadmapData (state (world s')) = []
      /\ industryInsights (state (world s')) = [].
Proof.
  split; [reflexivity |].
  apply (fetchData_failure_stores_nothing Sample.backend_url
           (rejects "Network Error" 1) (resolves Sample.insights 2)).
  left. exists "Network Error". reflexivity.
Defined.

Lemma fetchLevelDetails_failure_keeps_state_witness :
  outcome (rejects (A := Bundle.t) "timeout" 3) = Rejected "timeout"
  /\ exists k,
      fetchLevelDetails Sample.backend_url (Js.Num 2)
        (rejects "timeout" 3) initial_world
      = Suspended
          (sent [level_url Sample.backend_url (Js.Num 2)] initial_world) k
      /\ exists w'',
          k initial_world = Finished (inr tt) w''
          /\ state w'' = initial_state.
Proof.
  split; [reflexivity |].
  destruct (fetchLevelDetails_failure_keeps_state Sample.backend_url
              (Js.Num 2) (rejects "timeout" 3) "timeout" eq_refl
              initial_world) as [k [Hk [_ Hrest]]].
  exists k. split; [exact Hk |].
  destruct (Hrest initial_world) as [w'' [Hw [Hs _]]].
  exists w''. split; assumption.
Defined.

Lemma level_card_click_fetches_and_stores_witness :
  nth_error Sample.levels 1 = Some Sample.level2
  /\ exists card,
      nth_error
        (VisualRoadmap
           {| roadmapData := Sample.levels;
              selectedLevel := Js.Null;
              levelDetails := None;
              industryInsights := Sample.insights;
              loading := false;
              activeTab := "roadmap" |}) 1 = Some card
      /\ card_onClick card = OnLevel (Js.Num 2).
Proof.
  split; [reflexivity |].
  apply (level_card_click_fetches_and_stores Sample.backend_url
           {| roadmapData := Sample.levels;
              selectedLevel := Js.Null;
              levelDetails := None;
              industryInsights := Sample.insights;
              loading := false;
              activeTab := "roadmap" |} 1 Sample.level2 eq_refl).
Defined.

Lemma stored_bundle_is_the_requested_level_witness :
  returns_requested_level (catalogue_backend Sample.catalogue)
  /\ outcome (catalogue_backend Sample.catalogue (Js.Num 2))
     = Fulfilled {| data := Sample.bundle_of Sample.level2 |}
  /\ exists k w'' details modal,
      fetchLevelDetails Sample.backend_url (Js.Num 2)
        (catalogue_backend Sample.catalogue (Js.Num 2)) initial_world
      = Suspended
          (sent [level_url Sample.backend_url (Js.Num 2)] initial_world) k
      /\ k initial_world = Finished (inr tt) w''
      /\ levelDetails (state w'') = Some details
      /\ RoadmapLevel.id (Bundle.level details) = Js.Num 2
      /\ LevelDetails (state w'') = Some modal
      /\ modal_heading modal = "Connected Devices - Level 2".
Proof.
  split; [apply catalogue_backend_returns_requested_level |].
  split; [reflexivity |].
  destruct (stored_bundle_is_the_requested_level Sample.backend_url
              (catalogue_backend Sample.catalogue)
              (catalogue_backend_returns_requested_level Sample.catalogue)
              (Js.Num 2) {| data := Sample.bundle_of Sample.level2 |}
              eq_refl initial_world) as [k [Hk Hrest]].
  destruct (Hrest initial_world)
    as [w'' [details [modal [Hw [Hd [Heq [Hid [Hm Hh]]]]]]]].
  exists k, w'', details, modal.
  repeat split; try assumption.
  rewrite Hh, Heq. reflexivity.
Defined.

Lemma difficulty_tables_witness :
  Js.Str "novice" <> Js.Str "beginner"
  /\ Js.Num 3 <> Js.Str "expert"
  /\ getLevelColor (Js.Str "novice") = "from-gray-400 to-gray-600"
  /\ getDifficultyIcon (Js.Num 3) = "📚".
Proof.
  split; [discriminate |]. split; [discriminate |].
  split.
  - apply (proj2 (proj2 difficulty_tables) (Js.Str "novice"));
      discriminate.
  - apply (proj2 (proj2 difficulty_tables) (Js.Num 3)); discriminate.
Defined.

Lemma detail_view_opens_once_and_closes_witness :
  outcome (resolves (Sample.bundle_of Sample.level2) 3)
  = Fulfilled {| data := Sample.bundle_of Sample.level2 |}
  /\ Js.truthy (Js.Num 2) = true
  /\ exists k w'',
      fetchLevelDetails Sample.backend_url (Js.Num 2)
        (resolves (Sample.bundle_of Sample.level2) 3) initial_world
      = Suspended
          (sent [level_url Sample.backend_url (Js.Num 2)] initial_world) k
      /\ k (with_state
              {| roadmapData := Sample.levels;
                 selectedLevel := Js.Null;
                 levelDetails := None;
                 industryInsights := Sample.insights;
                 loading := false;
                 activeTab := "roadmap" |} initial_world)
         = Finished (inr tt) w''
      /\ length (modals (App (state w''))) = 1.
Proof.
  split; [reflexivity |]. split; [reflexivity |].
  destruct (proj1 (proj2 (proj2
              (detail_view_opens_once_and_closes Sample.backend_url)))
              (Js.Num 2) (resolves (Sample.bundle_of Sample.level2) 3)
              _ eq_refl initial_world) as [k [Hk Hrest]].
  destruct (Hrest (with_state
                     {| roadmapData := Sample.levels;
                        selectedLevel := Js.Null;
                        levelDetails := None;
                        industryInsights := Sample.insights;
                        loading := false;
                        activeTab := "roadmap" |} initial_world))
    as [w'' [Hw [_ [_ Hone]]]].
  exists k, w''. split; [exact Hk |]. split; [exact Hw |].
  apply Hone; reflexivity.
Defined.

Lemma one_panel_at_a_time_witness :
  match session Sample.backend_url (resolves Sample.levels 1)
          (resolves Sample.insights 2)
          [Resume 0; Click (OnTab "insights") (rejects "unused" 0)] with
  | Some s =>
      reachable Sample.backend_url s
      /\ loading (state (world s)) = false
      /\ activeTab (state (world s)) = "insights"
      /\ panels (App (state (world s)))
         = [InsightsPanel (IndustryInsights (state (world s)))]
  | None => False
  end.
Proof.
  destruct (session Sample.backend_url (resolves Sample.levels 1)
              (resolves Sample.insights 2)
              [Resume 0; Click (OnTab "insights") (rejects "unused" 0)])
    as [s |] eqn:Hs; [| discriminate].
  pose proof (session_reachable _ _ _ _ _ Hs) as Hreach.
  assert (Hload : loading (state (world s)) = false)
    by (injection Hs as <-; reflexivity).
  assert (Htab : activeTab (state (world s)) = "insights")
    by (injection Hs as <-; reflexivity).
  split; [exact Hreach |]. split; [exact Hload |]. split; [exact Htab |].
  destruct (proj2 (proj2 (proj2
              (one_panel_at_a_time Sample.backend_url))) s Hreach)
    as [_ Hpanel].
  destruct (Hpanel Hload) as [[E _] | [_ E]]; [| exact E].
  rewrite Htab in E. discriminate.
Defined.

Lemma failed_request_logged_and_loading_false_witness :
  match session Sample.backend_url (resolves Sample.levels 1)
          (resolves Sample.insights 2)
          [Resume 0; Click (OnLevel (Js.Num 2)) (rejects "Network Error" 3)]
  with
  | Some s =>
      reachable Sample.backend_url s
      /\ exists k s',
          nth_error (pending s) 0 = Some k
          /\ failing Sample.backend_url k
               "Error fetching level details:" "Network Error"
          /\ step Sample.backend_url s (Resume 0) = Some s'
          /\ console (world s')
             = [("Error fetching level details:", "Network Error")]
          /\ loading (state (world s')) = false
  | None => False
  end.
Proof.
  destruct (session Sample.backend_url (resolves Sample.levels 1)
              (resolves Sample.insights 2)
              [Resume 0;
               Click (OnLevel (Js.Num 2)) (rejects "Network Error" 3)])
    as [s |] eqn:Hs; [| discriminate].
  pose proof (session_reachable _ _ _ _ _ Hs) as Hreach.
  split; [exact Hreach |].
  injection Hs as Hs.
  assert (Hk : exists k,
             nth_error (pending s) 0 = Some k
             /\ failing Sample.backend_url k
                  "Error fetching level details:" "Network Error"
             /\ console (world s) = []).
  { rewrite <- Hs. eexists. split; [reflexivity |]. split; [| reflexivity].
    eapply (failing_level Sample.backend_url (Js.Num 2)
              (rejects "Network Error" 3)); [| reflexivity].
    exists initial_world. eexists. reflexivity. }
  destruct Hk as [k [Hnth [Hfail Hconsole]]].
  destruct (proj2 (failed_request_logged_and_loading_false
                     Sample.backend_url)
              s Hreach 0 k _ _ Hnth Hfail) as [s' [Hstep [Hlog Hload]]].
  exists k, s'. rewrite Hconsole in Hlog.
  repeat split; assumption.
Defined.

(** C6 at a level whose id is the number 0.  Selecting a level should
    open exactly one detail view.  Here the level is selected with
    success: the id and the bundle are stored, the page is past loading
    and the card of the level is highlighted as the selected one, since
    [selectedLevel === level.id] compares with the id; yet no detail
    view is on the page, since [selectedLevel &&] tests the id for
    truthiness, and React prints the 0 in its place. *)
Lemma selecting_level_zero_opens_no_view :
  match session Sample.backend_url (resolves [Sample.level0] 1)
          (resolves Sample.insights 2)
          [Resume 0;
           Click (OnLevel (Js.Num 0))
             (resolves (Sample.bundle_of Sample.level0) 3);
           Resume 0] with
  | Some s =>
      loading (state (world s)) = false
      /\ selectedLevel (state (world s)) = Js.Num 0
      /\ levelDetails (state (world s))
         = Some (Sample.bundle_of Sample.level0)
      /\ length (modals (App (state (world s)))) <> 1
      /\ App (state (world s))
         = MainPage (navigation (state (world s)))
             [RoadmapPanel (VisualRoadmap (state (world s)))]
             [TextNode "0"]
      /\ map card_circle_class (VisualRoadmap (state (world s)))
         = ["border-yellow-400"]
  | None => False
  end.
Proof.
  cbn. repeat split. discriminate.
Qed.

(** The scenario of the spec: two levels with ids 1 and 2 are loaded and
    render as two cards; the card of level 2 is clicked; the request
    goes to the URL of level 2 and the modal shows the title of level
    2. *)
Example click_on_level_two :
  match session Sample.backend_url (resolves Sample.levels 1)
          (resolves Sample.insights 2)
          [Resume 0;
           Click (OnLevel (Js.Num 2))
             (catalogue_backend Sample.catalogue (Js.Num 2));
           Resume 0] with
  | Some s =>
      map card_key (VisualRoadmap (state (world s)))
      = [Js.Num 1; Js.Num 2]
      /\ requests (world s)
         = ["http://localhost:8001/api/roadmap";
            "http://localhost:8001/api/industry-insights";
            "http://localhost:8001/api/roadmap/level/2"]
      /\ selectedLevel (state (world s)) = Js.Num 2
      /\ map modal_heading (modals (App (state (world s))))
         = ["Connected Devices - Level 2"]
      /\ console (world s) = []
  | None => False
  end.
Proof. cbn. repeat split. Qed.

(** Nothing can be clicked while the page is loading. *)
Example no_click_while_loading :
  session Sample.backend_url (resolves Sample.levels 1)
    (resolves Sample.insights 2)
    [Click (OnTab "insights") (rejects "unused" 0)] = None.
Proof. reflexivity. Qed.

(** When both startup requests fail, the log gets the error of the one
    that failed first. *)
Example both_startup_requests_fail :
  match session Sample.backend_url (rejects "roadmap down" 5)
          (rejects "insights down" 4) [Resume 0] with
  | Some s =>
      console (world s) = [("Error fetching data:", "insights down")]
      /\ loading (state (world s)) = false
      /\ pending s = []
  | None => False
  end.
Proof. cbn. repeat split. Qed.

(* ================================================================== *)
(** ** The session theorems at work on the sample documents *)
(* ================================================================== *)

(** Names the state a sample session ends in and records that it is
    reachable. *)
Ltac after_session s Hs Hreach :=
  match goal with
  | |- match ?e with Some _ => _ | None => False end =>
      destruct e as [s |] eqn:Hs;
      [ pose proof (session_reachable _ _ _ _ _ Hs) as Hreach
      | discriminate Hs ]
  end.

Lemma nothing_happens_while_loading_witness :
  reachable Sample.backend_url
    (mount Sample.backend_url (resolves Sample.levels 1)
       (resolves Sample.insights 2))
  /\ loading
       (state (world (mount Sample.backend_url (resolves Sample.levels 1)
                        (resolves Sample.insights 2)))) = true
  /\ state (world (mount Sample.backend_url (resolves Sample.levels 1)
                     (resolves Sample.insights 2))) = initial_state
  /\ step Sample.backend_url
       (mount Sample.backend_url (resolves Sample.levels 1)
          (resolves Sample.insights 2))
       (Click (OnTab "insights") (rejects "unused" 0)) = None.
Proof.
  pose proof (reachable_mount Sample.backend_url
                (resolves Sample.levels 1) (resolves Sample.insights 2))
    as Hreach.
  split; [exact Hreach |]. split; [reflexivity |].
  destruct (nothing_happens_while_loading Sample.backend_url _ Hreach
              eq_refl) as [Hinit [_ [_ [_ [Hclick _]]]]].
  split; [exact Hinit | apply Hclick].
Defined.

Lemma loaded_page_stays_loaded_witness :
  match session Sample.backend_url (resolves Sample.levels 1)
          (resolves Sample.insights 2) [Resume 0] with
  | Some s =>
      reachable Sample.backend_url s
      /\ loading (state (world s)) = false
      /\ exists s',
          step Sample.backend_url s
            (Click (OnTab "insights") (rejects "unused" 0)) = Some s'
          /\ loading (state (world s')) = false
          /\ roadmapData (state (world s')) = roadmapData (state (world s))
  | None => False
  end.
Proof.
  after_session s Hs Hreach.
  assert (Hload : loading (state (world s)) = false)
    by (injection Hs as <-; reflexivity).
  assert (Hstep : exists s',
             step Sample.backend_url s
               (Click (OnTab "insights") (rejects "unused" 0)) = Some s')
    by (injection Hs as <-; eexists; reflexivity).
  destruct Hstep as [s' Hstep].
  split; [exact Hreach |]. split; [exact Hload |].
  exists s'. split; [exact Hstep |].
  destruct (loaded_page_stays_loaded Sample.backend_url s _ s'
              Hreach Hload Hstep) as [H1 [H2 _]].
  split; assumption.
Defined.

Lemma requests_are_startup_then_loaded_levels_witness :
  match session Sample.backend_url (resolves Sample.levels 1)
          (resolves Sample.insights 2)
          [Resume 0; Click (OnLevel (Js.Num 2)) (rejects "timeout" 3)]
  with
  | Some s =>
      reachable Sample.backend_url s
      /\ exists ids,
          requests (world s)
          = roadmap_url Sample.backend_url
            :: insights_url Sample.backend_url
            :: map (level_url Sample.backend_url) ids
  | None => False
  end.
Proof.
  after_session s Hs Hreach.
  split; [exact Hreach |].
  destruct (requests_are_startup_then_loaded_levels Sample.backend_url
              s Hreach) as [ids [Hids _]].
  exists ids. exact Hids.
Defined.

Lemma resumed_call_ends_witness :
  exists s',
    step Sample.backend_url
      (mount Sample.backend_url (rejects "Network Error" 1)
         (resolves Sample.insights 2)) (Resume 0) = Some s'
    /\ pending s' = []
    /\ requests (world s')
       = [roadmap_url Sample.backend_url;
          insights_url Sample.backend_url].
Proof.
  eexists. split; [reflexivity |].
  destruct (resumed_call_ends Sample.backend_url
              (mount Sample.backend_url (rejects "Network Error" 1)
                 (resolves Sample.insights 2)) 0 _
              (reachable_mount Sample.backend_url _ _) eq_refl)
    as [Hp [_ [Hr _]]].
  split; [exact Hp | exact Hr].
Defined.

Lemma click_effects_witness :
  match session Sample.backend_url (resolves Sample.levels 1)
          (resolves Sample.insights 2) [Resume 0] with
  | Some s =>
      exists s',
        step Sample.backend_url s
          (Click (OnLevel (Js.Num 1)) (rejects "timeout" 3)) = Some s'
        /\ console (world s') = console (world s)
        /\ requests (world s')
           = (requests (world s)
              ++ [level_url Sample.backend_url (Js.Num 1)])%list
  | None => False
  end.
Proof.
  after_session s Hs Hreach.
  assert (Hstep : exists s',
             step Sample.backend_url s
               (Click (OnLevel (Js.Num 1)) (rejects "timeout" 3)) = Some s')
    by (injection Hs as <-; eexists; reflexivity).
  destruct Hstep as [s' Hstep]. exists s'. split; [exact Hstep |].
  destruct (click_effects Sample.backend_url s _ _ s' Hstep)
    as [Hc [_ [_ [_ [Hr _]]]]].
  split; assumption.
Defined.

Lemma last_reply_wins_witness :
  match session Sample.backend_url (resolves Sample.levels 1)
          (resolves Sample.insights 2)
          [Resume 0;
           Click (OnLevel (Js.Num 2))
             (resolves (Sample.bundle_of Sample.level2) 4);
           Click (OnLevel (Js.Num 1))
             (resolves (Sample.bundle_of Sample.level1) 3);
           Resume 1] with
  | Some s =>
      reachable Sample.backend_url s
      /\ selectedLevel (state (world s)) = Js.Num 1
      /\ exists s',
          step Sample.backend_url s (Resume 0) = Some s'
          /\ selectedLevel (state (world s')) = Js.Num 2
          /\ map modal_heading (modals (App (state (world s'))))
             = ["Connected Devices - Level 2"]
  | None => False
  end.
Proof.
  after_session s Hs Hreach.
  assert (Hsel : selectedLevel (state (world s)) = Js.Num 1)
    by (injection Hs as <-; reflexivity).
  assert (Hk : exists k,
             nth_error (pending s) 0 = Some k
             /\ awaits
                  (fetchLevelDetails Sample.backend_url (Js.Num 2)
                     (resolves (Sample.bundle_of Sample.level2) 4)) k).
  { injection Hs as <-. eexists. split; [reflexivity |].
    exists initial_world. eexists. reflexivity. }
  destruct Hk as [k [Hk Hw]].
  split; [exact Hreach |]. split; [exact Hsel |].
  destruct (last_reply_wins Sample.backend_url s 0 k (Js.Num 2)
              (resolves (Sample.bundle_of Sample.level2) 4) _
              Hreach Hk Hw eq_refl)
    as [s' [Hstep [Hs' [_ [_ Hm]]]]].
  exists s'. split; [exact Hstep |]. split; [exact Hs' |].
  exact (Hm eq_refl).
Defined.

Lemma open_then_close_restores_state_witness :
  outcome (resolves (Sample.bundle_of Sample.level2) 3)
  = Fulfilled {| data := Sample.bundle_of Sample.level2 |}
  /\ selectedLevel (state initial_world) = Js.Null
  /\ levelDetails (state initial_world) = None
  /\ exists k w1 w2,
      awaits
        (fetchLevelDetails Sample.backend_url (Js.Num 2)
           (resolves (Sample.bundle_of Sample.level2) 3)) k
      /\ k initial_world = Finished (inr tt) w1
      /\ run_handler Sample.backend_url OnClose
           (resolves (Sample.bundle_of Sample.level2) 3) w1
         = Finished (inr tt) w2
      /\ w2 = initial_world.
Proof.
  split; [reflexivity |]. split; [reflexivity |]. split; [reflexivity |].
  assert (Hw : exists k,
             awaits
               (fetchLevelDetails Sample.backend_url (Js.Num 2)
                  (resolves (Sample.bundle_of Sample.level2) 3)) k).
  { eexists. exists initial_world. eexists. reflexivity. }
  destruct Hw as [k Hw].
  destruct (proj1 (open_then_close_restores_state Sample.backend_url)
              (Js.Num 2) (resolves (Sample.bundle_of Sample.level2) 3)
              _ k initial_world Hw eq_refl eq_refl eq_refl)
    as [w1 [w2 [H1 [H2 H3]]]].
  exists k, w1, w2. repeat split; assumption.
Defined.

Lemma tab_click_only_switches_tab_witness :
  activeTab (state initial_world) = "roadmap"
  /\ exists w',
      run_handler Sample.backend_url (OnTab "roadmap")
        (rejects "unused" 0) initial_world = Finished (inr tt) w'
      /\ w' = initial_world.
Proof.
  split; [reflexivity |].
  destruct (tab_click_only_switches_tab Sample.backend_url "roadmap"
              (rejects "unused" 0) initial_world)
    as [w' [Hrun [_ [_ [_ [_ [_ [_ [_ [_ [_ Hsame]]]]]]]]]]].
  exists w'. split; [exact Hrun | apply Hsame; reflexivity].
Defined.

Lemma active_tab_button_matches_panel_witness :
  match session Sample.backend_url (resolves Sample.levels 1)
          (resolves Sample.insights 2)
          [Resume 0; Click (OnTab "insights") (rejects "unused" 0)] with
  | Some s =>
      reachable Sample.backend_url s
      /\ loading (state (world s)) = false
      /\ map nav_class (navigation (state (world s)))
         = ["text-gray-300 hover:text-white hover:bg-white/10";
            "bg-blue-500 text-white"]
  | None => False
  end.
Proof.
  after_session s Hs Hreach.
  assert (Hload : loading (state (world s)) = false)
    by (injection Hs as <-; reflexivity).
  assert (Htab : activeTab (state (world s)) = "insights")
    by (injection Hs as <-; reflexivity).
  split; [exact Hreach |]. split; [exact Hload |].
  destruct (active_tab_button_matches_panel Sample.backend_url s
              Hreach Hload) as [[E _] | [E _]]; [| exact E].
  unfold navigation, tab_class in E. rewrite Htab in E. discriminate.
Defined.

Lemma clickable_exactly_witness :
  In (OnLevel (Js.Num 2))
    (clickable
       (App {| roadmapData := Sample.levels;
               selectedLevel := Js.Null;
               levelDetails := None;
               industryInsights := Sample.insights;
               loading := false;
               activeTab := "roadmap" |}))
  /\ ~ In (OnLevel (Js.Num 2))
         (clickable
            (App {| roadmapData := Sample.levels;
                    selectedLevel := Js.Null;
                    levelDetails := None;
                    industryInsights := Sample.insights;
                    loading := false;
                    activeTab := "insights" |})).
Proof.
  split.
  - apply (proj2 (clickable_exactly _ _)). split; [reflexivity |].
    right. right. left. split; [reflexivity |].
    exists Sample.level2. split; [right; left; reflexivity | reflexivity].
  - intros H. apply (proj1 (clickable_exactly _ _)) in H.
    destruct H as [_ [H | [H | [[H _] | [H _]]]]]; discriminate.
Defined.

Lemma card_layout_and_highlight_witness :
  nth_error Sample.levels 1 = Some Sample.level2
  /\ exists card,
      nth_error
        (VisualRoadmap
           {| roadmapData := Sample.levels;
              selectedLevel := Js.Num 2;
              levelDetails := Some (Sample.bundle_of Sample.level2);
              industryInsights := Sample.insights;
              loading := false;
              activeTab := "roadmap" |}) 1 = Some card
      /\ card_row_class card = "justify-end"
      /\ card_circle_class card = "border-yellow-400".
Proof.
  split; [reflexivity |].
  destruct (card_layout_and_highlight
              {| roadmapData := Sample.levels;
                 selectedLevel := Js.Num 2;
                 levelDetails := Some (Sample.bundle_of Sample.level2);
                 industryInsights := Sample.insights;
                 loading := false;
                 activeTab := "roadmap" |} 1 Sample.level2 eq_refl)
    as [card [Hn [_ [_ [Hodd Hsel]]]]].
  exists card. split; [exact Hn |]. split.
  - apply Hodd. exists 0. reflexivity.
  - apply Hsel. reflexivity.
Defined.

Lemma insight_heading_replaces_first_underscore_only_witness :
  insight_heading
    (insight_card
       {| Insight.id := Js.Str "i2";
          Insight.specialization := "industrial_iot_systems";
          Insight.market_size := "";
          Insight.growth_rate := "";
          Insight.avg_salary := "";
          Insight.key_trends := [];
          Insight.major_companies := [];
          Insight.future_outlook := "" |})
  = "industrial iot_systems".
Proof.
  apply (insight_heading_replaces_first_underscore_only _
           "industrial" "iot_systems").
  - intros c Hc. cbn in Hc.
    repeat (destruct Hc as [<- | Hc]; [discriminate |]). contradiction.
  - reflexivity.
Defined.

Lemma overlay_stray_text_is_zero_witness :
  In (TextNode "0")
    (overlay {| roadmapData := [Sample.level0];
                selectedLevel := Js.Num 0;
                levelDetails := Some (Sample.bundle_of Sample.level0);
                industryInsights := [];
                loading := false;
                activeTab := "roadmap" |}).
Proof.
  apply (proj2 (overlay_stray_text_is_zero _)). split; reflexivity.
Defined.

Lemma color_and_icon_agree_witness :
  getLevelColor (Js.Str "novice") = getLevelColor Js.Undefined
  /\ getDifficultyIcon (Js.Str "novice") = getDifficultyIcon Js.Undefined
  /\ ~ known_difficulty (Js.Str "novice")
  /\ getLevelColor (Js.Str "expert") <> getLevelColor (Js.Str "advanced").
Proof.
  split; [reflexivity |]. split; [| split].
  - apply (proj1 (color_and_icon_agree (Js.Str "novice") Js.Undefined)).
    reflexivity.
  - destruct (proj1 (proj2 (color_and_icon_agree (Js.Str "novice")
                              Js.Undefined)) eq_refl)
      as [[E _] | [K _]]; [discriminate E | exact K].
  - intros H.
    destruct (proj1 (proj2 (color_and_icon_agree (Js.Str "expert")
                              (Js.Str "advanced"))) H)
      as [[E _] | [K _]]; [discriminate E |].
    apply K. right. right. right. reflexivity.
Defined.

Lemma level_url_by_string_form_witness :
  Js.to_string Js.Null = Js.to_string (Js.Str "null")
  /\ level_url Sample.backend_url Js.Null
     = level_url Sample.backend_url (Js.Str "null").
Proof.
  split; [reflexivity |].
  apply (proj1 (level_url_by_string_form Sample.backend_url)).
  reflexivity.
Defined.

(** Closing the view does not cancel a request in flight: level 1 is
    open, the card of level 2 is clicked, the view is closed, and when
    the reply for level 2 arrives its view opens. *)
Example reply_after_close_reopens_the_view :
  match session Sample.backend_url (resolves Sample.levels 1)
          (resolves Sample.insights 2)
          [Resume 0;
           Click (OnLevel (Js.Num 1))
             (resolves (Sample.bundle_of Sample.level1) 3);
           Resume 0;
           Click (OnLevel (Js.Num 2))
             (resolves (Sample.bundle_of Sample.level2) 9);
           Click OnClose (rejects "unused" 0)] with
  | Some s =>
      modals (App (state (world s))) = []
      /\ match step Sample.backend_url s (Resume 0) with
         | Some s' =>
             map modal_heading (modals (App (state (world s'))))
             = ["Connected Devices - Level 2"]
         | None => False
         end
  | None => False
  end.
Proof. cbn. split; reflexivity. Qed.

(** Both startup requests fail, the insights request first.  Once the
    [catch] block of [fetchData] has run the call is over, and the log
    holds the error of the insights request alone: the roadmap request
    failed too, and its error is not logged. *)
Lemma later_startup_failure_is_not_logged :
  outcome (rejects (A := list RoadmapLevel.t) "roadmap down" 5)
  = Rejected "roadmap down"
  /\ outcome (rejects (A := list Insight.t) "insights down" 4)
     = Rejected "insights down"
  /\ match session Sample.backend_url (rejects "roadmap down" 5)
             (rejects "insights down" 4) [Resume 0] with
     | Some s =>
         pending s = []
         /\ console (world s) = [("Error fetching data:", "insights down")]
         /\ ~ In "roadmap down" (map snd (console (world s)))
     | None => False
     end.
Proof.
  split; [reflexivity |]. split; [reflexivity |]. cbn.
  split; [reflexivity |]. split; [reflexivity |].
  intros [H | []]. discriminate H.
Qed.
